(** * The sales dashboards' record pipeline

    A shallow embedding of the data pipeline shared by the Streamlit pages
    under [pages/]: the preprocessing done in [get_dataframe], the derived
    columns (season, year, year-season, year-month, yielding), the sidebar
    filters, the [groupby(...).agg(...)] summaries and the ordering of the
    result, followed by the properties stated about them.

    Conventions of the embedding.
    - A pandas frame is the list of its rows, in row order.  The columns the
      pages read are the fields of a record; the remaining columns of
      [SELECT *] are kept as one list of cells because [drop_duplicates]
      compares them too.
    - A cell of an object column is an [option string]; [None] is the missing
      value (None / NaN).  A cell of a date column is a [datecell].
    - Integer columns are [Z].  The decimal amount [TB_SUBTOTALAGREE] is held
      exactly, as an integer count of the smallest unit of the column, so
      sums are exact.  A float result that may be NaN or infinite is an
      [fval], whose finite values are exact rationals.
    - A Streamlit widget returns what the user picked; the widgets of a run
      are the fields of a [UI] record, and a multiselect is a function from
      the label and the offered options to the picked values. *)

From Stdlib Require Import List ZArith QArith Bool String Ascii Lia.
From Stdlib Require Import Qround Permutation Decimal DecimalString DecimalPos DecimalZ.
Import ListNotations.

Local Open Scope string_scope.
Local Open Scope list_scope.
Local Open Scope Z_scope.

(* ================================================================== *)
(** * Cells *)

(** A cell of an object (string) column. *)
Definition cell : Type := option string.

(** What [pd.Timestamp] exposes of a point in time: the calendar fields read
    by the pages and the time within the day. *)
Record Timestamp : Type := mkTs {
  year  : Z;
  month : Z;
  day   : Z;
  time  : Z
}.

(** A cell of a date column.  [DNull] is the missing value (None, NaN or
    NaT); [DInvalid] is a value that is present but that [pd.to_datetime]
    cannot turn into a timestamp (unparseable text, a date outside the
    representable range); [DTs] is a timestamp. *)
Inductive datecell : Type :=
| DNull
| DInvalid (raw : string)
| DTs (t : Timestamp).

Definition cell_eq_dec (a b : cell) : {a = b} + {a <> b}.
Proof. decide equality; apply string_dec. Defined.

Definition Timestamp_eq_dec (a b : Timestamp) : {a = b} + {a <> b}.
Proof. decide equality; apply Z.eq_dec. Defined.

Definition datecell_eq_dec (a b : datecell) : {a = b} + {a <> b}.
Proof. decide equality; [apply string_dec | apply Timestamp_eq_dec]. Defined.

(** [pd.notnull] on the two kinds of cell. *)
Definition notnull {A : Type} (c : option A) : bool :=
  match c with Some _ => true | None => false end.

Definition notnull_date (d : datecell) : bool :=
  match d with DNull => false | _ => true end.

(** [Series.fillna(v)] on one cell. *)
Definition fillna (v : string) (c : cell) : cell :=
  match c with Some s => Some s | None => Some v end.

(** [pd.to_datetime(..., errors='coerce')] on one cell: what cannot be
    converted becomes NaT. *)
Definition to_datetime (d : datecell) : datecell :=
  match d with DTs t => DTs t | DInvalid _ => DNull | DNull => DNull end.

(** Comparison of timestamps, as [<=] on [pd.Timestamp]. *)
Definition ts_compare (a b : Timestamp) : comparison :=
  match year a ?= year b with
  | Eq => match month a ?= month b with
          | Eq => match day a ?= day b with
                  | Eq => time a ?= time b
                  | c => c
                  end
          | c => c
          end
  | c => c
  end.

Definition ts_leb (a b : Timestamp) : bool :=
  match ts_compare a b with Gt => false | _ => true end.

(** [col >= start] and [col <= end] on a date column: a comparison with NaT
    is False. *)
Definition date_ge (d : datecell) (start : Timestamp) : bool :=
  match d with DTs t => ts_leb start t | _ => false end.

Definition date_le (d : datecell) (stop : Timestamp) : bool :=
  match d with DTs t => ts_leb t stop | _ => false end.

(* ================================================================== *)
(** * Text *)

(** [str(n)] for an integer. *)
Definition str_of_Z (n : Z) : string := NilZero.string_of_int (Z.to_int n).

(** [int(s)] on decimal text with an optional minus sign; [None] stands for
    the ValueError raised on anything else. *)
Definition int_of_str (s : string) : option Z :=
  option_map Z.of_int (NilZero.int_of_string s).

(** Two-digit month of a period label. *)
Definition pad2 (n : Z) : string :=
  if n <? 10 then ("0" ++ str_of_Z n)%string else str_of_Z n.

(** [s.split()]: the maximal runs of non-blank characters. *)
Definition is_blank (c : ascii) : bool :=
  (c =? " ")%char || (c =? "009")%char || (c =? "010")%char
  || (c =? "011")%char || (c =? "012")%char || (c =? "013")%char.

Fixpoint split_aux (cur : string) (s : string) : list string :=
  match s with
  | EmptyString => match cur with EmptyString => [] | _ => [cur] end
  | String c s' =>
      if is_blank c
      then match cur with
           | EmptyString => split_aux EmptyString s'
           | _ => cur :: split_aux EmptyString s'
           end
      else split_aux (cur ++ String c EmptyString)%string s'
  end.

Definition split (s : string) : list string := split_aux EmptyString s.

(** The text holds no blank character. *)
Fixpoint no_blank (s : string) : bool :=
  match s with
  | EmptyString => true
  | String c s' => negb (is_blank c) && no_blank s'
  end.

(** [l.index(x)]; [None] stands for the ValueError raised when [x] is not in
    the list. *)
Fixpoint list_index (x : string) (l : list string) : option nat :=
  match l with
  | [] => None
  | y :: l' => if String.eqb x y then Some O
               else option_map S (list_index x l')
  end.

(* ================================================================== *)
(** * Generic frame operations *)

Section Frames.
Context {A : Type} (A_eq_dec : forall a b : A, {a = b} + {a <> b}).

Definition mem (x : A) (l : list A) : bool :=
  if in_dec A_eq_dec x l then true else false.

(** Keep the first occurrence of every value, in order of appearance: the
    order of [Series.unique()] and the rows kept by [drop_duplicates()]. *)
Fixpoint keep_first (seen : list A) (l : list A) : list A :=
  match l with
  | [] => []
  | x :: l' => if mem x seen then keep_first seen l'
               else x :: keep_first (x :: seen) l'
  end.

Definition unique (l : list A) : list A := keep_first [] l.

Definition drop_duplicates (df : list A) : list A := keep_first [] df.

(** [Series.isin(values)]. *)
Definition isin (values : list A) (x : A) : bool := mem x values.
End Frames.

Section Sorting.
Context {A : Type} (leb : A -> A -> bool).

(** A stable sort: an element goes in front of the first one that is
    strictly greater. *)
Fixpoint insert_sorted (x : A) (l : list A) : list A :=
  match l with
  | [] => [x]
  | y :: l' => if leb y x then y :: insert_sorted x l' else x :: y :: l'
  end.

Definition sort (l : list A) : list A :=
  fold_left (fun acc x => insert_sorted x acc) l [].
End Sorting.

(* ================================================================== *)
(** * Rows *)

(** A row as fetched by [session.sql(query).to_pandas()], under the column
    names of the warehouse table. *)
Module Raw.
Record Row : Type := mkRow {
  VP_VENUENAME : cell;
  VT_NAME : cell;
  TB_GLOBALTYPE : cell;
  EF_NAME : cell;
  TI_ITEMNAME : cell;
  TB_QTY : Z;
  STOCK : Z;
  TB_SUBTOTALAGREE : Z;
  TB_GUESTS : Z;
  TB_CARTID : cell;
  TI_CALDATE : datecell;
  TB_TRANSDATE : datecell;
  ADDTIER_YIELD_ALLITEMS : option Z;
  TIER_TIER_ALLITEMS : option Z;
  other_columns : list cell
}.

Definition Row_eq_dec (a b : Row) : {a = b} + {a <> b}.
Proof.
  decide equality;
    try apply cell_eq_dec; try apply Z.eq_dec; try apply datecell_eq_dec;
    try (apply list_eq_dec; apply cell_eq_dec);
    decide equality; apply Z.eq_dec.
Defined.
End Raw.

(** A row of the frame returned by [get_dataframe], under the names given by
    [rename]; the two yield columns and the unread columns keep theirs. *)
Record Row : Type := mkRow {
  Venue_Name : cell;
  Venue_Type : cell;
  Pay_Type : cell;
  Event_Name : cell;
  Item_Name : cell;
  Quantity : Z;
  Stock : Z;
  Value : Z;
  Guests : Z;
  Cart_ID : cell;
  Event_Date : datecell;
  Transaction_Date : datecell;
  ADDTIER_YIELD_ALLITEMS : option Z;
  TIER_TIER_ALLITEMS : option Z;
  other_columns : list cell
}.

Definition Row_eq_dec (a b : Row) : {a = b} + {a <> b}.
Proof.
  decide equality;
    try apply cell_eq_dec; try apply Z.eq_dec; try apply datecell_eq_dec;
    try (apply list_eq_dec; apply cell_eq_dec);
    decide equality; apply Z.eq_dec.
Defined.

(* ================================================================== *)
(** * The Normalizer: [get_dataframe] *)

(** [snow_df.dropna(subset=['TI_CALDATE', 'TB_TRANSDATE'])]. *)
Definition dropna_dates (snow_df : list Raw.Row) : list Raw.Row :=
  filter (fun r => notnull_date (Raw.TI_CALDATE r)
                   && notnull_date (Raw.TB_TRANSDATE r)) snow_df.

(** The five [snow_df[c] = snow_df[c].fillna('Unknown')] assignments. *)
Definition fill_unknown (r : Raw.Row) : Raw.Row :=
  {| Raw.VP_VENUENAME := fillna "Unknown" (Raw.VP_VENUENAME r);
     Raw.VT_NAME := fillna "Unknown" (Raw.VT_NAME r);
     Raw.TB_GLOBALTYPE := fillna "Unknown" (Raw.TB_GLOBALTYPE r);
     Raw.EF_NAME := fillna "Unknown" (Raw.EF_NAME r);
     Raw.TI_ITEMNAME := fillna "Unknown" (Raw.TI_ITEMNAME r);
     Raw.TB_QTY := Raw.TB_QTY r;
     Raw.STOCK := Raw.STOCK r;
     Raw.TB_SUBTOTALAGREE := Raw.TB_SUBTOTALAGREE r;
     Raw.TB_GUESTS := Raw.TB_GUESTS r;
     Raw.TB_CARTID := Raw.TB_CARTID r;
     Raw.TI_CALDATE := Raw.TI_CALDATE r;
     Raw.TB_TRANSDATE := Raw.TB_TRANSDATE r;
     Raw.ADDTIER_YIELD_ALLITEMS := Raw.ADDTIER_YIELD_ALLITEMS r;
     Raw.TIER_TIER_ALLITEMS := Raw.TIER_TIER_ALLITEMS r;
     Raw.other_columns := Raw.other_columns r |}.

(** [snow_df.rename(columns={...}, inplace=True)]. *)
Definition rename (r : Raw.Row) : Row :=
  {| Venue_Name := Raw.VP_VENUENAME r;
     Venue_Type := Raw.VT_NAME r;
     Pay_Type := Raw.TB_GLOBALTYPE r;
     Event_Name := Raw.EF_NAME r;
     Item_Name := Raw.TI_ITEMNAME r;
     Quantity := Raw.TB_QTY r;
     Stock := Raw.STOCK r;
     Value := Raw.TB_SUBTOTALAGREE r;
     Guests := Raw.TB_GUESTS r;
     Cart_ID := Raw.TB_CARTID r;
     Event_Date := Raw.TI_CALDATE r;
     Transaction_Date := Raw.TB_TRANSDATE r;
     ADDTIER_YIELD_ALLITEMS := Raw.ADDTIER_YIELD_ALLITEMS r;
     TIER_TIER_ALLITEMS := Raw.TIER_TIER_ALLITEMS r;
     other_columns := Raw.other_columns r |}.

(** The body of the [try] block of [get_dataframe] after the fetch: remove
    duplicate rows, drop the rows with a null date, fill the null
    categoricals, rename. *)
Definition preprocess (snow_df : list Raw.Row) : list Row :=
  map rename (map fill_unknown (dropna_dates (drop_duplicates Raw.Row_eq_dec snow_df))).

(** [get_dataframe(query)].  The argument is the outcome of
    [session.sql(query).to_pandas()]: [None] when there is no session or the
    fetch raises, in which case the function reports the failure and returns
    None. *)
Definition get_dataframe (fetched : option (list Raw.Row)) : option (list Row) :=
  option_map preprocess fetched.

(** The output of [get_dataframe] read back under the warehouse names, which
    is what its own column look-ups ([snow_df['EF_NAME']] and the like) need
    in order to be run on it again. *)
Definition as_raw (r : Row) : Raw.Row :=
  {| Raw.VP_VENUENAME := Venue_Name r;
     Raw.VT_NAME := Venue_Type r;
     Raw.TB_GLOBALTYPE := Pay_Type r;
     Raw.EF_NAME := Event_Name r;
     Raw.TI_ITEMNAME := Item_Name r;
     Raw.TB_QTY := Quantity r;
     Raw.STOCK := Stock r;
     Raw.TB_SUBTOTALAGREE := Value r;
     Raw.TB_GUESTS := Guests r;
     Raw.TB_CARTID := Cart_ID r;
     Raw.TI_CALDATE := Event_Date r;
     Raw.TB_TRANSDATE := Transaction_Date r;
     Raw.ADDTIER_YIELD_ALLITEMS := ADDTIER_YIELD_ALLITEMS r;
     Raw.TIER_TIER_ALLITEMS := TIER_TIER_ALLITEMS r;
     Raw.other_columns := other_columns r |}.

(** The five categorical columns of a row are all present. *)
Definition categoricals_present (r : Row) : Prop :=
  notnull (Venue_Name r) = true /\ notnull (Venue_Type r) = true
  /\ notnull (Pay_Type r) = true /\ notnull (Event_Name r) = true
  /\ notnull (Item_Name r) = true.

(** Both date columns of a row are present. *)
Definition dates_present (r : Row) : Prop :=
  notnull_date (Event_Date r) = true /\ notnull_date (Transaction_Date r) = true.

(** The two [df[c] = pd.to_datetime(df[c], errors='coerce')] assignments
    that open every page. *)
Definition coerce_dates (r : Row) : Row :=
  {| Venue_Name := Venue_Name r;
     Venue_Type := Venue_Type r;
     Pay_Type := Pay_Type r;
     Event_Name := Event_Name r;
     Item_Name := Item_Name r;
     Quantity := Quantity r;
     Stock := Stock r;
     Value := Value r;
     Guests := Guests r;
     Cart_ID := Cart_ID r;
     Event_Date := to_datetime (Event_Date r);
     Transaction_Date := to_datetime (Transaction_Date r);
     ADDTIER_YIELD_ALLITEMS := ADDTIER_YIELD_ALLITEMS r;
     TIER_TIER_ALLITEMS := TIER_TIER_ALLITEMS r;
     other_columns := other_columns r |}.

(** [df.dropna(subset=['Event Date', 'Transaction Date'])], the step that
    the Daily Inventory page runs after the coercion ("Drop rows with
    invalid dates"). *)
Definition dropna_event_dates (df : list Row) : list Row :=
  filter (fun r => notnull_date (Event_Date r)
                   && notnull_date (Transaction_Date r)) df.

(* ================================================================== *)
(** * Derived fields *)

(** [date.month]; the month of NaT is NaN, which is in no list. *)
Definition month_of (date : datecell) : option Z :=
  match date with DTs t => Some (month t) | _ => None end.

(** [x in l] for a month number. *)
Definition month_in (m : option Z) (l : list Z) : bool :=
  match m with Some n => existsb (Z.eqb n) l | None => false end.

(** [get_season(date)]; falling off the end of the [elif] chain returns
    None. *)
Definition get_season (date : datecell) : cell :=
  if month_in (month_of date) [12; 1; 2] then Some "Winter"
  else if month_in (month_of date) [3; 4; 5] then Some "Spring"
  else if month_in (month_of date) [6; 7; 8] then Some "Summer"
  else if month_in (month_of date) [9; 10; 11] then Some "Fall"
  else None.

(** [df['Season'] = df['Event Date'].apply(get_season)]. *)
Definition Season (r : Row) : cell := get_season (Event_Date r).

(** [df['Year'] = df['Event Date'].dt.year.fillna(0).astype(int)]. *)
Definition Year (r : Row) : Z :=
  match Event_Date r with DTs t => year t | _ => 0 end.

(** [df['YearSeason'] = df['Year'].astype(str) + ' ' + df['Season']]; adding
    a missing season gives a missing label. *)
Definition YearSeason (r : Row) : cell :=
  match Season r with
  | Some s => Some (str_of_Z (Year r) ++ " " ++ s)%string
  | None => None
  end.

(** [df['YearMonth'] = df['Event Date'].dt.to_period('M').astype(str)]; the
    text of the missing period is "NaT". *)
Definition YearMonth (r : Row) : string :=
  match Event_Date r with
  | DTs t => (str_of_Z (year t) ++ "-" ++ pad2 (month t))%string
  | _ => "NaT"
  end.

(** [(pd.notnull(v) and v > 0)]. *)
Definition present_and_positive (v : option Z) : bool :=
  match v with Some n => 0 <? n | None => false end.

(** The lambda of [df['yielding'] = df.apply(..., axis=1)]. *)
Definition yielding (x : Row) : string :=
  if present_and_positive (ADDTIER_YIELD_ALLITEMS x)
     || present_and_positive (TIER_TIER_ALLITEMS x)
  then "yes" else "no".

(* ================================================================== *)
(** * Float results *)

(** A float64 result: NaN, an infinity with its sign, or a finite value.
    Finite values are kept as exact rationals. *)
Inductive fval : Type :=
| FNaN
| FInf (negative : bool)
| FFin (q : Q).

(** [a / b] on two integer columns (true division): a zero divisor gives
    NaN for 0/0 and an infinity with the sign of the dividend otherwise. *)
Definition truediv (a b : Z) : fval :=
  if b =? 0 then (if a =? 0 then FNaN else FInf (a <? 0))
  else FFin (inject_Z a / inject_Z b)%Q.

(** The same when the divisor column may hold NaN. *)
Definition truediv_col (a : Z) (b : option Z) : fval :=
  match b with Some n => truediv a n | None => FNaN end.

(** [x * c] for an integer constant [c]. *)
Definition fscale (x : fval) (c : Z) : fval :=
  match x with
  | FNaN => FNaN
  | FInf s => if c =? 0 then FNaN else FInf (xorb s (c <? 0))
  | FFin q => FFin (q * inject_Z c)%Q
  end.

(** Rounding to the nearest integer, ties to the even one. *)
Definition rint (q : Q) : Z :=
  let f := Qfloor q in
  match Qcompare (q - inject_Z f) (1 # 2) with
  | Lt => f
  | Gt => f + 1
  | Eq => if Z.even f then f else f + 1
  end.

(** Rounding of a rational to two decimals. *)
Definition round2 (q : Q) : Q := (inject_Z (rint (q * 100)) / 100)%Q.

(** [Series.round(2)] on one value: NaN and the infinities stay. *)
Definition fround2 (x : fval) : fval :=
  match x with FFin q => FFin (round2 q) | _ => x end.

(* ================================================================== *)
(** * Grouping *)

(** A value of a grouping column. *)
Inductive keycell : Type :=
| KStr (s : string)
| KTs (t : Timestamp).

Definition keycell_eq_dec (a b : keycell) : {a = b} + {a <> b}.
Proof. decide equality; [apply string_dec | apply Timestamp_eq_dec]. Defined.

Definition key_eq_dec : forall a b : list keycell, {a = b} + {a <> b} :=
  list_eq_dec keycell_eq_dec.

(** Order of the values of one column: text by code point, timestamps by
    time.  (One column never mixes the two.) *)
Definition keycell_leb (a b : keycell) : bool :=
  match a, b with
  | KStr x, KStr y => String.leb x y
  | KTs x, KTs y => ts_leb x y
  | KStr _, KTs _ => true
  | KTs _, KStr _ => false
  end.

(** Order of group keys: tuples compare column by column. *)
Fixpoint key_leb (a b : list keycell) : bool :=
  match a, b with
  | [], _ => true
  | _ :: _, [] => false
  | x :: a', y :: b' =>
      if keycell_eq_dec x y then key_leb a' b' else keycell_leb x y
  end.

Section GroupBy.
Context {R K : Type}.
Context (K_eq_dec : forall a b : K, {a = b} + {a <> b}).
Context (K_leb : K -> K -> bool).
(** The key of a row; [None] when one of its key columns is missing. *)
Context (key : R -> option K).

Definition has_key (k : K) (r : R) : bool :=
  match key r with
  | Some k' => if K_eq_dec k k' then true else false
  | None => false
  end.

(** The row has a key and the key is one of [ks]. *)
Definition keyed_in (ks : list K) (r : R) : bool :=
  match key r with Some k => mem K_eq_dec k ks | None => false end.

(** The keys present in the frame, without the rows whose key is missing
    ([dropna=True]). *)
Definition present_keys (df : list R) : list K :=
  flat_map (fun r => match key r with Some k => [k] | None => [] end) df.

(** [df.groupby(cols)]: one group per distinct key, groups in ascending
    key order ([sort=True]), each with its rows in frame order. *)
Definition groupby (df : list R) : list (K * list R) :=
  map (fun k => (k, filter (has_key k) df))
      (sort K_leb (unique K_eq_dec (present_keys df))).
End GroupBy.

(** The aggregations. *)
Definition col_sum {R : Type} (f : R -> Z) (g : list R) : Z :=
  fold_right (fun r acc => f r + acc) 0 g.

(** ['max']; NaN (here [None]) on no rows. *)
Definition col_max {R : Type} (f : R -> Z) (g : list R) : option Z :=
  match g with
  | [] => None
  | r :: g' => Some (fold_left (fun m r' => Z.max m (f r')) g' (f r))
  end.

(** ['mean']. *)
Definition col_mean {R : Type} (f : R -> Z) (g : list R) : fval :=
  truediv (col_sum f g) (Z.of_nat (List.length g)).

(** [pd.Series.nunique]: the number of distinct values, missing ones not
    counted. *)
Definition nunique {R : Type} (f : R -> cell) (g : list R) : nat :=
  List.length (unique cell_eq_dec (filter notnull (map f g))).

(** The columns the pages group by. *)
Inductive column : Type :=
| cDate
| cYearMonth
| cYearSeason
| cVenue_Name
| cVenue_Type
| cPay_Type
| cEvent_Name
| cItem_Name
| cyielding.

(** The value of a grouping column in a row; [None] when it is missing. *)
Definition column_value (c : column) (r : Row) : option keycell :=
  match c with
  | cDate => match Event_Date r with DTs t => Some (KTs t) | _ => None end
  | cYearMonth => Some (KStr (YearMonth r))
  | cYearSeason => option_map KStr (YearSeason r)
  | cVenue_Name => option_map KStr (Venue_Name r)
  | cVenue_Type => option_map KStr (Venue_Type r)
  | cPay_Type => option_map KStr (Pay_Type r)
  | cEvent_Name => option_map KStr (Event_Name r)
  | cItem_Name => option_map KStr (Item_Name r)
  | cyielding => Some (KStr (yielding r))
  end.

(** The key tuple of a row for [group_by_cols]. *)
Fixpoint row_key (group_by_cols : list column) (r : Row) : option (list keycell) :=
  match group_by_cols with
  | [] => Some []
  | c :: cols =>
      match column_value c r, row_key cols r with
      | Some v, Some k => Some (v :: k)
      | _, _ => None
      end
  end.

Definition groupby_cols (group_by_cols : list column) (df : list Row)
  : list (list keycell * list Row) :=
  groupby key_eq_dec key_leb (row_key group_by_cols) df.

(** A row of [df_grouped] on the pages that sum value, guests and quantity:
    the key columns, the sums, the means when "Show Average" is ticked, and
    the number of distinct cart ids. *)
Record SummaryRow : Type := mkSummaryRow {
  group_key : list keycell;
  Value_sum : Z;
  Value_avg : option fval;
  Guests_sum : Z;
  Guests_avg : option fval;
  Quantity_sum : Z;
  Quantity_avg : option fval;
  TRANSACTION_COUNT : nat
}.

(** [.agg({'Value': ['sum', 'mean'] if show_average else ['sum'], ...,
    'Cart ID': pd.Series.nunique})] on one group. *)
Definition agg (show_average : bool) (kg : list keycell * list Row) : SummaryRow :=
  let g := snd kg in
  {| group_key := fst kg;
     Value_sum := col_sum Value g;
     Value_avg := if show_average then Some (col_mean Value g) else None;
     Guests_sum := col_sum Guests g;
     Guests_avg := if show_average then Some (col_mean Guests g) else None;
     Quantity_sum := col_sum Quantity g;
     Quantity_avg := if show_average then Some (col_mean Quantity g) else None;
     TRANSACTION_COUNT := nunique Cart_ID g |}.

(** [df.groupby(group_by_cols).agg({...}).reset_index()]. *)
Definition grouped_summary (show_average : bool) (group_by_cols : list column)
    (df : list Row) : list SummaryRow :=
  map (agg show_average) (groupby_cols group_by_cols df).

(** [df_grouped.sort_values(by=c)] where [c] is the first key column.  Rows
    with equal values of [c] stay in their order. *)
Definition first_key_leb (a b : SummaryRow) : bool :=
  match group_key a, group_key b with
  | x :: _, y :: _ => keycell_leb x y
  | [], _ => true
  | _ :: _, [] => false
  end.

Definition sort_values_first (df_grouped : list SummaryRow) : list SummaryRow :=
  sort first_key_leb df_grouped.

(** The first key column of the grouped frame, as text. *)
Definition first_key_text (g : SummaryRow) : cell :=
  match group_key g with KStr s :: _ => Some s | _ => None end.

(* ================================================================== *)
(** * Widgets, exceptions and outcomes *)

Inductive date_field : Type := EventDate | TransactionDate.

(** What the user does in one run of a page. *)
Record UI : Type := mkUI {
  (** [st.sidebar.radio("Select Date Filter Type", ...)] *)
  radio_filter_type : date_field;
  (** [st.sidebar.date_input(..., [])]: the dates picked so far *)
  date_input : list Timestamp;
  (** [st.sidebar.multiselect(label, options)] *)
  multiselect : string -> list cell -> list cell;
  (** [st.sidebar.checkbox("Show Average")] *)
  checkbox_show_average : bool
}.

Inductive exn : Type :=
| NameError (name : string)
| IndexError
| ValueError.

Inductive result (A : Type) : Type :=
| Ok (a : A)
| Err (e : exn).
Arguments Ok {A} a.
Arguments Err {A} e.

Definition bind {A B : Type} (m : result A) (f : A -> result B) : result B :=
  match m with Ok a => f a | Err e => Err e end.

Notation "x <- m ;; k" := (bind m (fun x => k))
  (at level 61, m at next level, right associativity).

Fixpoint mapM {A B : Type} (f : A -> result B) (l : list A) : result (list B) :=
  match l with
  | [] => Ok []
  | x :: l' => y <- f x ;; ys <- mapM f l' ;; Ok (y :: ys)
  end.

(** Reading a local variable that is bound only on some paths. *)
Definition read_local {A : Type} (name : string) (v : option A) : result A :=
  match v with Some a => Ok a | None => Err (NameError name) end.

(** What a run of a page ends in. *)
Inductive outcome : Type :=
| FailedToRetrieve                         (* "Failed to retrieve data." *)
| NoGroupingSelected                       (* "No grouping filters selected." *)
| NoData                                   (* "No data found to display." *)
| Shown (df_grouped : list SummaryRow)     (* charts and tables *)
| Raised (e : exn).                        (* the run stops with an exception *)

(** Truth value of a list. *)
Definition nonempty {A : Type} (l : list A) : bool :=
  match l with [] => false | _ :: _ => true end.

(** [df[df[c].isin(selected)]]. *)
Definition where_isin (c : Row -> cell) (selected : list cell) (df : list Row) : list Row :=
  filter (fun r => isin cell_eq_dec selected (c r)) df.

(** [df[df[c].isin(selected)] if selected else df]. *)
Definition narrow (c : Row -> cell) (selected : list cell) (df : list Row) : list Row :=
  if nonempty selected then where_isin c selected df else df.

(** [df[c].unique()]. *)
Definition unique_of (c : Row -> cell) (df : list Row) : list cell :=
  unique cell_eq_dec (map c df).

Definition date_column (filter_type : date_field) (r : Row) : datecell :=
  match filter_type with
  | EventDate => Event_Date r
  | TransactionDate => Transaction_Date r
  end.

(** The [if date_filter and len(date_filter) == 2:] block. *)
Definition apply_date_filter (ui : UI) (df : list Row) : list Row :=
  match date_input ui with
  | [start_date; end_date] =>
      filter (fun r => date_ge (date_column (radio_filter_type ui) r) start_date
                       && date_le (date_column (radio_filter_type ui) r) end_date) df
  | _ => df
  end.

(** [group_by_cols.append(c)] under [if selected:]. *)
Definition append_if {A : Type} (selected : list A) (c : column) : list column :=
  if nonempty selected then [c] else [].

(* ================================================================== *)
(** * Daily Inventory page *)

(** Lines 95-99: coercion of the two dates, then the rows whose dates did
    not convert are dropped. *)
Definition daily_inventory_dates (df : list Row) : list Row :=
  dropna_event_dates (map coerce_dates df).

(** A row of [df_grouped] on this page. *)
Record InventoryRow : Type := mkInventoryRow {
  inv_key : list keycell;
  inv_Quantity : Z;
  inv_Stock : option Z;
  inv_Value : Z;
  inv_Guests : Z;
  inv_TRANSACTION_COUNT : nat;
  PERCENTAGE_SALE : fval
}.

(** [(df_grouped['Quantity'] / df_grouped['Stock']) * 100], then
    [.round(2)]. *)
Definition percentage_sale (quantity : Z) (stock : option Z) : fval :=
  fround2 (fscale (truediv_col quantity stock) 100).

Definition inventory_agg (kg : list keycell * list Row) : InventoryRow :=
  let g := snd kg in
  {| inv_key := fst kg;
     inv_Quantity := col_sum Quantity g;
     inv_Stock := col_max Stock g;
     inv_Value := col_sum Value g;
     inv_Guests := col_sum Guests g;
     inv_TRANSACTION_COUNT := nunique Cart_ID g;
     PERCENTAGE_SALE := percentage_sale (col_sum Quantity g) (col_max Stock g) |}.

(** Rows in the order of [df.sort_values(by='Event Date')]: missing dates
    last. *)
Definition event_date_leb (a b : Row) : bool :=
  match Event_Date a, Event_Date b with
  | DTs x, DTs y => ts_leb x y
  | DTs _, _ => true
  | _, DTs _ => false
  | _, _ => true
  end.

Definition inventory_group_by_cols (ef_name_filter : string) : list column :=
  if String.eqb ef_name_filter "All"
  then [cDate; cVenue_Name; cItem_Name]
  else [cDate; cVenue_Name; cEvent_Name; cItem_Name].

(** Lines 133-156, on the frame left by the sidebar filters:
    the sort by event date, the grouping, the aggregation and the
    percentage-of-stock column. *)
Definition inventory_grouped (ef_name_filter : string) (df : list Row)
  : list InventoryRow :=
  map inventory_agg
      (groupby_cols (inventory_group_by_cols ef_name_filter)
                    (sort event_date_leb df)).

(* ================================================================== *)
(** * Transaction Pool Yielding page *)

(** The values of the locals of one run that the properties refer to. *)
Record PoolYieldRun : Type := mkPoolYieldRun {
  py_df : list Row;
  py_filtered_df : list Row;
  py_group_by_cols : list column;
  py_df_grouped : list SummaryRow
}.

(** Lines 86-146. *)
Definition pool_yield_run (ui : UI) (df0 : list Row) : PoolYieldRun :=
  let df := map coerce_dates df0 in
  let selected_vp_venuename :=
    multiselect ui "Select Venue Name" (unique_of Venue_Name df) in
  let filtered_df := narrow Venue_Name selected_vp_venuename df in
  let selected_ef_name :=
    multiselect ui "Select Event Name" (unique_of Event_Name filtered_df) in
  let filtered_df := narrow Event_Name selected_ef_name filtered_df in
  let selected_ti_itemname :=
    multiselect ui "Select Item Name" (unique_of Item_Name filtered_df) in
  let filtered_df := narrow Item_Name selected_ti_itemname filtered_df in
  let selected_yielding :=
    multiselect ui "Select Yielding"
                (unique_of (fun r => Some (yielding r)) filtered_df) in
  let filtered_df := narrow (fun r => Some (yielding r)) selected_yielding filtered_df in
  let show_average := checkbox_show_average ui in
  let filtered_df := apply_date_filter ui filtered_df in
  let group_by_cols :=
    [cYearMonth] ++ append_if selected_vp_venuename cVenue_Name
                 ++ append_if selected_ef_name cEvent_Name
                 ++ append_if selected_ti_itemname cItem_Name
                 ++ append_if selected_yielding cyielding in
  {| py_df := df;
     py_filtered_df := filtered_df;
     py_group_by_cols := group_by_cols;
     py_df_grouped := grouped_summary show_average group_by_cols filtered_df |}.

(** The page from [if df is not None:] to the branch on
    [df_grouped.empty]. *)
Definition pool_yield_page (ui : UI) (df : option (list Row)) : outcome :=
  match df with
  | None => FailedToRetrieve
  | Some df0 =>
      let df_grouped := py_df_grouped (pool_yield_run ui df0) in
      if nonempty df_grouped then Shown (sort_values_first df_grouped)
      else NoData
  end.

(* ================================================================== *)
(** * Seasonal Grouping page *)

Record SeasonalRun : Type := mkSeasonalRun {
  sg_df : list Row;
  sg_filtered_df : list Row;
  sg_group_by_cols : list column;
  sg_df_grouped : list SummaryRow
}.

(** Lines 105-158. *)
Definition seasonal_grouping_run (ui : UI) (df0 : list Row) : SeasonalRun :=
  let df := map coerce_dates df0 in
  let selected_venue_name :=
    multiselect ui "Select Venue Name" (unique_of Venue_Name df) in
  let filtered_df := narrow Venue_Name selected_venue_name df in
  let selected_event_name :=
    multiselect ui "Select Event Name" (unique_of Event_Name filtered_df) in
  let filtered_df := narrow Event_Name selected_event_name filtered_df in
  let selected_item_name :=
    multiselect ui "Select Item Name" (unique_of Item_Name filtered_df) in
  let filtered_df := narrow Item_Name selected_item_name filtered_df in
  let show_average := checkbox_show_average ui in
  let filtered_df := apply_date_filter ui filtered_df in
  let group_by_cols :=
    [cYearSeason] ++ append_if selected_venue_name cVenue_Name
                  ++ append_if selected_event_name cEvent_Name
                  ++ append_if selected_item_name cItem_Name in
  {| sg_df := df;
     sg_filtered_df := filtered_df;
     sg_group_by_cols := group_by_cols;
     sg_df_grouped := grouped_summary show_average group_by_cols filtered_df |}.

(** The page down to [df_grouped = df_grouped.sort_values(by="YearSeason")]. *)
Definition seasonal_grouping_page (ui : UI) (df : option (list Row)) : outcome :=
  match df with
  | None => FailedToRetrieve
  | Some df0 =>
      let df_grouped := sg_df_grouped (seasonal_grouping_run ui df0) in
      if nonempty df_grouped then Shown (sort_values_first df_grouped)
      else NoData
  end.

(** The [YearSeason] column of a grouped frame. *)
Definition YearSeason_labels (df_grouped : list SummaryRow) : list cell :=
  map first_key_text df_grouped.

(* ================================================================== *)
(** * Seasonal Analysis page: the derived columns *)

(** A row of [df] once [Season], [Year] and [YearSeason] have been added. *)
Record SeasonalRow : Type := mkSeasonalRow {
  base : Row;
  col_Season : cell;
  col_Year : Z;
  col_YearSeason : cell
}.

(** Lines 95-114: the coercion of the dates, then the three derived columns
    computed on every row of the frame. *)
Definition seasonal_derived (df : list Row) : list SeasonalRow :=
  map (fun r => {| base := r;
                   col_Season := Season r;
                   col_Year := Year r;
                   col_YearSeason := YearSeason r |})
      (map coerce_dates df).

(* ================================================================== *)
(** * Day-of-the-week page: the order of the season traces *)

Definition seasons_order : list string := ["Spring"; "Summer"; "Fall"; "Winter"].

(** [x.split()[n]]. *)
Definition word (n : nat) (x : string) : result string :=
  match nth_error (split x) n with
  | Some w => Ok w
  | None => Err IndexError
  end.

(** The sort key
    [lambda x: (int(x.split()[0]), seasons_order.index(x.split()[1]))]. *)
Definition season_key (x : string) : result (Z * nat) :=
  w0 <- word 0 x ;;
  y <- match int_of_str w0 with Some n => Ok n | None => Err ValueError end ;;
  w1 <- word 1 x ;;
  i <- match list_index w1 seasons_order with
       | Some n => Ok n
       | None => Err ValueError
       end ;;
  Ok (y, i).

(** Order of the key tuples. *)
Definition season_key_leb (a b : Z * nat) : bool :=
  (fst a <? fst b) || ((fst a =? fst b) && (snd a <=? snd b)%nat).

(** [sorted(labels, key=...)]: the keys are computed first, then the labels
    are sorted by key, equal keys staying in their order. *)
Definition sorted_seasons (labels : list string) : result (list string) :=
  keyed <- mapM (fun x => k <- season_key x ;; Ok (k, x)) labels ;;
  Ok (map snd (sort (fun a b => season_key_leb (fst a) (fst b)) keyed)).

(* ================================================================== *)
(** * Transaction Type page *)

(** What the cascade of multiselects offered and what was picked. *)
Record Cascade : Type := mkCascade {
  selected_venue_type : list cell;
  pay_type_options : list cell;
  selected_pay_type : list cell;
  venue_name_options : list cell;
  selected_venue_name : list cell;
  item_name_options : list cell;
  selected_item_name : list cell
}.

(** Lines 108-126.  [df_pay_type_filtered] and [df_venue_name_filtered] are
    assigned only in the [if] branches; a local that was not assigned is
    [None], and reading it raises NameError. *)
Definition cascade (ui : UI) (df : list Row) : result Cascade :=
  let selected_venue_type :=
    multiselect ui "Select Venue Type" (unique_of Venue_Type df) in
  let df_pay_type_filtered : option (list Row) :=
    if nonempty selected_venue_type
    then Some (where_isin Venue_Type selected_venue_type df)
    else None in
  let pay_type_options :=
    match df_pay_type_filtered with
    | Some d => unique_of Pay_Type d
    | None => unique_of Pay_Type df
    end in
  let selected_pay_type := multiselect ui "Select Pay Type" pay_type_options in
  df_venue_name_filtered <-
    (if nonempty selected_pay_type
     then d <- read_local "df_pay_type_filtered" df_pay_type_filtered ;;
          Ok (Some (where_isin Pay_Type selected_pay_type d))
     else Ok None) ;;
  let venue_name_options :=
    match df_venue_name_filtered with
    | Some d => unique_of Venue_Name d
    | None => unique_of Venue_Name df
    end in
  let selected_venue_name := multiselect ui "Select Venue Name" venue_name_options in
  df_item_name_filtered <-
    (if nonempty selected_venue_name
     then d <- read_local "df_venue_name_filtered" df_venue_name_filtered ;;
          Ok (Some (where_isin Venue_Name selected_venue_name d))
     else Ok None) ;;
  let item_name_options :=
    match df_item_name_filtered with
    | Some d => unique_of Item_Name d
    | None => unique_of Item_Name df
    end in
  let selected_item_name := multiselect ui "Select Item Name" item_name_options in
  Ok {| selected_venue_type := selected_venue_type;
        pay_type_options := pay_type_options;
        selected_pay_type := selected_pay_type;
        venue_name_options := venue_name_options;
        selected_venue_name := selected_venue_name;
        item_name_options := item_name_options;
        selected_item_name := selected_item_name |}.

(** Lines 130-145: the date filter, then the four selections applied to
    [df]. *)
Definition transaction_type_filtered (ui : UI) (c : Cascade) (df : list Row) : list Row :=
  let df := apply_date_filter ui df in
  let df := narrow Venue_Type (selected_venue_type c) df in
  let df := narrow Pay_Type (selected_pay_type c) df in
  let df := narrow Venue_Name (selected_venue_name c) df in
  narrow Item_Name (selected_item_name c) df.

(** Lines 148-156. *)
Definition transaction_type_group_by_cols (c : Cascade) : list column :=
  append_if (selected_venue_type c) cVenue_Type
  ++ append_if (selected_pay_type c) cPay_Type
  ++ append_if (selected_venue_name c) cVenue_Name
  ++ append_if (selected_item_name c) cItem_Name.

(** The page from [if df is not None:] to the sort of the grouped frame. *)
Definition transaction_type_page (ui : UI) (df : option (list Row)) : outcome :=
  match df with
  | None => FailedToRetrieve
  | Some df0 =>
      let df := map coerce_dates df0 in
      match cascade ui df with
      | Err e => Raised e
      | Ok c =>
          let filtered := transaction_type_filtered ui c df in
          let group_by_cols := transaction_type_group_by_cols c in
          if nonempty group_by_cols then
            let df_grouped :=
              grouped_summary (checkbox_show_average ui)
                              (cYearMonth :: group_by_cols) filtered in
            if nonempty df_grouped then Shown (sort_values_first df_grouped)
            else NoData
          else NoGroupingSelected
      end
  end.

(* ================================================================== *)
(** * The stated behaviour, in the words of the specification *)


(** Position of a season in the cycle Spring, Summer, Fall, Winter. *)
Definition cycle_index (season : string) : option nat :=
  list_index season ["Spring"; "Summer"; "Fall"; "Winter"].

(** The year and the place in the cycle of a "{year} {season}" label. *)
Definition label_year_season (x : string) : option (Z * nat) :=
  match split x with
  | yx :: sx :: _ =>
      match int_of_str yx, cycle_index sx with
      | Some y, Some i => Some (y, i)
      | _, _ => None
      end
  | _ => None
  end.

(** Calendar order of two labels: ascending by year and, within one year,
    by the place of the season in the cycle.  A label that is missing or
    not of that shape is in order with nothing. *)
Definition calendar_leb (a b : cell) : bool :=
  match a, b with
  | Some x, Some y =>
      match label_year_season x, label_year_season y with
      | Some (n, i), Some (m, j) => (n <? m) || ((n =? m) && (i <=? j)%nat)
      | _, _ => false
      end
  | _, _ => false
  end.

(** Each element is in order with the next one. *)
Fixpoint ordered {A : Type} (leb : A -> A -> bool) (l : list A) : bool :=
  match l with
  | x :: ((y :: _) as l') => leb x y && ordered leb l'
  | _ => true
  end.

(** The frame the candidates of a later filter are to be computed from: the
    page's frame narrowed by every earlier filter that has a selection. *)
Definition narrowed_for_venue_name (c : Cascade) (df : list Row) : list Row :=
  narrow Pay_Type (selected_pay_type c)
         (narrow Venue_Type (selected_venue_type c) df).

Definition narrowed_for_item_name (c : Cascade) (df : list Row) : list Row :=
  narrow Venue_Name (selected_venue_name c) (narrowed_for_venue_name c df).

Definition narrowed_for_pay_type (c : Cascade) (df : list Row) : list Row :=
  narrow Venue_Type (selected_venue_type c) df.


(* ================================================================== *)
(** * Sample data *)

Definition at_midnight (y m d : Z) : datecell := DTs (mkTs y m d 0).

(** A charge of [quantity] units of item [item] at venue [venue]. *)
Definition sample_row (venue venue_type pay_type item : string)
    (quantity stock value : Z) (cart : string) (event_date : datecell) : Row :=
  {| Venue_Name := Some venue;
     Venue_Type := Some venue_type;
     Pay_Type := Some pay_type;
     Event_Name := Some "Opening";
     Item_Name := Some item;
     Quantity := quantity;
     Stock := stock;
     Value := value;
     Guests := 1;
     Cart_ID := Some cart;
     Event_Date := event_date;
     Transaction_Date := at_midnight 2023 1 15;
     ADDTIER_YIELD_ALLITEMS := None;
     TIER_TIER_ALLITEMS := None;
     other_columns := [Some "charge"] |}.

(** A run in which nothing is picked in the sidebar. *)
Definition nothing_picked : UI :=
  {| radio_filter_type := EventDate;
     date_input := [];
     multiselect := fun _ _ => [];
     checkbox_show_average := false |}.

(** A run in which [picked] is picked in the multiselect labelled [label]
    and nothing anywhere else. *)
Definition pick_only (label : string) (picked : list cell) : UI :=
  {| radio_filter_type := EventDate;
     date_input := [];
     multiselect := fun l _ => if String.eqb l label then picked else [];
     checkbox_show_average := false |}.


(** One sale in April and one in October of the same year. *)
Definition spring_and_fall : list Row :=
  [sample_row "Cabana" "Pool" "card" "Towel" 5 10 100 "c1" (at_midnight 2023 4 1);
   sample_row "Cabana" "Pool" "card" "Towel" 3 10 50 "c2" (at_midnight 2023 10 2)].

(** A fetched row whose event date is present but is not a date pandas can
    represent, next to an ordinary one. *)
Definition fetched_with_bad_date : list Raw.Row :=
  map as_raw
      [sample_row "Cabana" "Pool" "card" "Towel" 5 10 100 "c1" (at_midnight 2023 4 1);
       sample_row "Cabana" "Pool" "card" "Towel" 3 10 50 "c2" (DInvalid "9999-12-31")].

(** Two venues of different types. *)
Definition pool_and_bar : list Row :=
  [sample_row "Cabana" "Pool" "card" "Towel" 5 10 100 "c1" (at_midnight 2023 4 1);
   sample_row "Lounge" "Bar" "cash" "Soda" 3 10 50 "c2" (at_midnight 2023 4 2)].

(** Two fetched rows that differ only in the venue name, missing in the
    first and the text "Unknown" in the second. *)
Definition null_and_unknown_venue : list Raw.Row :=
  [as_raw {| Venue_Name := None;
             Venue_Type := Some "Pool";
             Pay_Type := Some "card";
             Event_Name := Some "Opening";
             Item_Name := Some "Towel";
             Quantity := 5;
             Stock := 10;
             Value := 100;
             Guests := 1;
             Cart_ID := Some "c1";
             Event_Date := at_midnight 2023 4 1;
             Transaction_Date := at_midnight 2023 1 15;
             ADDTIER_YIELD_ALLITEMS := None;
             TIER_TIER_ALLITEMS := None;
             other_columns := [Some "charge"] |};
   as_raw (sample_row "Unknown" "Pool" "card" "Towel" 5 10 100 "c1" (at_midnight 2023 4 1))].

(* ================================================================== *)
(** * Daily Inventory page: the sidebar *)

(** What the user does in one run of the Daily Inventory page, and the
    clock. *)
Record InventoryUI : Type := mkInventoryUI {
  (** [st.sidebar.date_input("Select Event Date Range", [])] *)
  inv_date_input : list Timestamp;
  (** [st.sidebar.selectbox(label, options)] *)
  selectbox : string -> list cell -> cell;
  (** [pd.Timestamp.now()] *)
  now : Timestamp
}.

Definition is_leap_year (y : Z) : bool :=
  (y mod 4 =? 0) && (negb (y mod 100 =? 0) || (y mod 400 =? 0)).

Definition days_in_month (y m : Z) : Z :=
  if m =? 2 then (if is_leap_year y then 29 else 28)
  else if (m =? 4) || (m =? 6) || (m =? 9) || (m =? 11) then 30
  else 31.

(** [t - pd.DateOffset(months=1)]: the same day and time of the previous
    month, the day brought back to the last day of that month when the
    month is shorter. *)
Definition minus_one_month (t : Timestamp) : Timestamp :=
  let y := if month t =? 1 then year t - 1 else year t in
  let m := if month t =? 1 then 12 else month t - 1 in
  {| year := y;
     month := m;
     day := Z.min (day t) (days_in_month y m);
     time := time t |}.

(** [df[c] == v] on one cell: a comparison with a missing value is False. *)
Definition cell_equals (x v : cell) : bool :=
  match x, v with
  | Some a, Some b => String.eqb a b
  | _, _ => false
  end.

(** [df[df[c] == v]]. *)
Definition where_equals (c : Row -> cell) (v : cell) (df : list Row) : list Row :=
  filter (fun r => cell_equals (c r) v) df.

(** [v == "All"]. *)
Definition is_All (v : cell) : bool :=
  match v with Some s => String.eqb s "All" | None => false end.

(** [df[(df["Event Date"] >= start_date) & (df["Event Date"] <= end_date)]]. *)
Definition between (c : Row -> datecell) (start_date end_date : Timestamp)
    (df : list Row) : list Row :=
  filter (fun r => date_ge (c r) start_date && date_le (c r) end_date) df.

(** The values of the locals of one run of the sidebar. *)
Record InventoryFilter : Type := mkInventoryFilter {
  inv_start_date : Timestamp;
  inv_end_date : Timestamp;
  vp_venuename_filter : cell;
  ef_name_filter : cell;
  ti_itemname_filter : cell;
  inv_df : list Row
}.

(** Lines 95-130: the coercion and the drop of the rows without dates, the
    date range (the month that ends now when no range is picked), then the
    three select boxes, the last two opening with the option "All". *)
Definition daily_inventory_filter (ui : InventoryUI) (df0 : list Row) : InventoryFilter :=
  let df := daily_inventory_dates df0 in
  let start_date :=
    match inv_date_input ui with
    | [s; _] => s
    | _ => minus_one_month (now ui)
    end in
  let end_date :=
    match inv_date_input ui with
    | [_; e] => e
    | _ => now ui
    end in
  let df := between Event_Date start_date end_date df in
  let vp_venuename_filter :=
    selectbox ui "Select Venue Name" (unique_of Venue_Name df) in
  let df := where_equals Venue_Name vp_venuename_filter df in
  let ef_name_options := unique_of Event_Name df in
  let ef_name_filter :=
    selectbox ui "Select Event Name" (Some "All" :: ef_name_options) in
  let df := if is_All ef_name_filter then df
            else where_equals Event_Name ef_name_filter df in
  let ti_itemname_options := unique_of Item_Name df in
  let ti_itemname_filter :=
    selectbox ui "Select Item Name" (Some "All" :: ti_itemname_options) in
  let df := if is_All ti_itemname_filter then df
            else where_equals Item_Name ti_itemname_filter df in
  {| inv_start_date := start_date;
     inv_end_date := end_date;
     vp_venuename_filter := vp_venuename_filter;
     ef_name_filter := ef_name_filter;
     ti_itemname_filter := ti_itemname_filter;
     inv_df := df |}.

(* ================================================================== *)
(** * Transaction Analysis page: the filters *)

(** The widgets of the other pages, and
    [st.sidebar.radio("Select Filter", [...])]. *)
Record OptionUI : Type := mkOptionUI {
  widgets : UI;
  radio_select_filter : string
}.

(** [picked and len(picked) == 2] for a date input that may be None. *)
Definition two_dates (picked : option (list Timestamp)) : option (Timestamp * Timestamp) :=
  match picked with
  | Some [s; e] => Some (s, e)
  | _ => None
  end.

(** Lines 90-126: the coercion, the filter chosen with the radio button (the
    chosen column must be in what the multiselect returns), the date range
    on the chosen date column, and the sort by event date. *)
Definition transaction_analysis_filtered (ui : OptionUI) (df0 : list Row) : list Row :=
  let df := map coerce_dates df0 in
  let caldate_filter :=
    match radio_filter_type (widgets ui) with
    | EventDate => Some (date_input (widgets ui))
    | TransactionDate => None
    end in
  let transdate_filter :=
    match radio_filter_type (widgets ui) with
    | EventDate => None
    | TransactionDate => Some (date_input (widgets ui))
    end in
  let filter_option := radio_select_filter ui in
  let df_filtered :=
    if String.eqb filter_option "Venue Name" then
      where_isin Venue_Name
        (multiselect (widgets ui) "Select Venue Name" (unique_of Venue_Name df)) df
    else if String.eqb filter_option "Venue Type" then
      where_isin Venue_Type
        (multiselect (widgets ui) "Select Venue Type" (unique_of Venue_Type df)) df
    else if String.eqb filter_option "Pay Type" then
      where_isin Pay_Type
        (multiselect (widgets ui) "Select Pay Type" (unique_of Pay_Type df)) df
    else df in
  let df_filtered :=
    match two_dates caldate_filter with
    | Some (start_date, end_date) => between Event_Date start_date end_date df_filtered
    | None => df_filtered
    end in
  let df_filtered :=
    match two_dates transdate_filter with
    | Some (start_date, end_date) =>
        between Transaction_Date start_date end_date df_filtered
    | None => df_filtered
    end in
  sort event_date_leb df_filtered.

(* ================================================================== *)
(** * Day-of-the-week page: the labels handed to [sorted] *)

(** The year-season labels that are present in a frame. *)
Definition present_YearSeason (df : list Row) : list string :=
  flat_map (fun r => match YearSeason r with Some l => [l] | None => [] end) df.

(** [df_grouped['YearSeason'].unique()] after
    [df_grouped.sort_values(by=["YearSeason", "DayOfWeek"])]: the distinct
    labels of the filtered frame, in the order of their text. *)
Definition grouped_YearSeason_labels (filtered_df : list Row) : list string :=
  sort String.leb (unique string_dec (present_YearSeason filtered_df)).

(* ================================================================== *)
(** * Months in order *)





(* ================================================================== *)
(** * Facts about the frame operations *)

Section FrameFacts.
Context {A : Type} (A_eq_dec : forall a b : A, {a = b} + {a <> b}).

Lemma mem_true_iff (x : A) (l : list A) : mem A_eq_dec x l = true <-> In x l.
Proof.
  unfold mem. destruct (in_dec A_eq_dec x l); split; intros; auto; discriminate.
Qed.

Lemma mem_false_iff (x : A) (l : list A) : mem A_eq_dec x l = false <-> ~ In x l.
Proof.
  unfold mem. destruct (in_dec A_eq_dec x l); split; intros; auto;
    try discriminate; contradiction.
Qed.

Lemma keep_first_In (seen l : list A) (x : A) :
  In x (keep_first A_eq_dec seen l) <-> In x l /\ ~ In x seen.
Proof.
  revert seen. induction l as [|y l IH]; intros seen; simpl.
  - tauto.
  - destruct (mem A_eq_dec y seen) eqn:E.
    + apply mem_true_iff in E. rewrite IH. split.
      * intros [H1 H2]. auto.
      * intros [[H1|H1] H2]; [subst; contradiction | auto].
    + apply mem_false_iff in E. simpl. rewrite IH. simpl. split.
      * intros [H|[H1 H2]]; [subst; auto | split; auto].
      * intros [[H1|H1] H2]; [auto|].
        destruct (A_eq_dec y x) as [->|N]; [auto|].
        right. split; [auto|]. intros [H|H]; auto.
Qed.

Lemma keep_first_NoDup (seen l : list A) : NoDup (keep_first A_eq_dec seen l).
Proof.
  revert seen. induction l as [|y l IH]; intros seen; simpl.
  - constructor.
  - destruct (mem A_eq_dec y seen) eqn:E; [apply IH|].
    constructor; [|apply IH].
    rewrite keep_first_In. intros [_ H]. apply H. left. reflexivity.
Qed.

(** A frame without repeated rows, none of them seen before, is kept as
    it is. *)
Lemma keep_first_fixed (seen l : list A) :
  NoDup l -> (forall x, In x l -> ~ In x seen) ->
  keep_first A_eq_dec seen l = l.
Proof.
  revert seen. induction l as [|y l IH]; intros seen ND Hs; simpl.
  - reflexivity.
  - inversion ND as [|? ? Hy ND']; subst.
    destruct (mem A_eq_dec y seen) eqn:E.
    + apply mem_true_iff in E. exfalso. apply (Hs y); simpl; auto.
    + f_equal. apply IH; [assumption|].
      intros x Hx [H|H]; [subst; contradiction|].
      apply (Hs x); simpl; auto.
Qed.

Lemma keep_first_idempotent (seen l : list A) :
  keep_first A_eq_dec seen (keep_first A_eq_dec seen l)
  = keep_first A_eq_dec seen l.
Proof.
  apply keep_first_fixed.
  - apply keep_first_NoDup.
  - intros x Hx. apply keep_first_In in Hx. tauto.
Qed.

Lemma unique_In (l : list A) (x : A) : In x (unique A_eq_dec l) <-> In x l.
Proof. unfold unique. rewrite keep_first_In. simpl. tauto. Qed.

Lemma unique_NoDup (l : list A) : NoDup (unique A_eq_dec l).
Proof. apply keep_first_NoDup. Qed.

Lemma drop_duplicates_In (l : list A) (x : A) :
  In x (drop_duplicates A_eq_dec l) <-> In x l.
Proof. apply unique_In. Qed.

Lemma drop_duplicates_idempotent (l : list A) :
  drop_duplicates A_eq_dec (drop_duplicates A_eq_dec l)
  = drop_duplicates A_eq_dec l.
Proof. apply keep_first_idempotent. Qed.

Lemma drop_duplicates_fixed (l : list A) :
  NoDup l -> drop_duplicates A_eq_dec l = l.
Proof. intros H. apply keep_first_fixed; auto. Qed.
End FrameFacts.

(** Duplicate removal commutes with a relabelling of the rows that can be
    undone. *)
Lemma keep_first_map {A B : Type}
    (A_eq_dec : forall a b : A, {a = b} + {a <> b})
    (B_eq_dec : forall a b : B, {a = b} + {a <> b})
    (f : A -> B) (g : B -> A) (seen l : list A) :
  (forall a, g (f a) = a) ->
  keep_first B_eq_dec (map f seen) (map f l)
  = map f (keep_first A_eq_dec seen l).
Proof.
  intros Hgf. revert seen. induction l as [|y l IH]; intros seen; simpl.
  - reflexivity.
  - assert (E : mem B_eq_dec (f y) (map f seen) = mem A_eq_dec y seen).
    { destruct (mem A_eq_dec y seen) eqn:E.
      - apply mem_true_iff in E. apply mem_true_iff. apply in_map. exact E.
      - apply mem_false_iff in E. apply mem_false_iff.
        intros H. apply in_map_iff in H. destruct H as [z [Hz Hin]].
        apply E. apply (f_equal g) in Hz. rewrite !Hgf in Hz. subst. exact Hin. }
    rewrite E. destruct (mem A_eq_dec y seen).
    + apply IH.
    + simpl. f_equal. apply (IH (y :: seen)).
Qed.

Lemma filter_all {A : Type} (p : A -> bool) (l : list A) :
  (forall x, In x l -> p x = true) -> filter p l = l.
Proof.
  induction l as [|x l IH]; intros H; simpl.
  - reflexivity.
  - rewrite (H x) by (simpl; auto). f_equal. apply IH.
    intros y Hy. apply H. simpl. auto.
Qed.

Lemma map_fixed {A : Type} (f : A -> A) (l : list A) :
  (forall x, In x l -> f x = x) -> map f l = l.
Proof.
  induction l as [|x l IH]; intros H; simpl.
  - reflexivity.
  - rewrite (H x) by (simpl; auto). f_equal. apply IH.
    intros y Hy. apply H. simpl. auto.
Qed.

Section SortFacts.
Context {A : Type} (leb : A -> A -> bool).

Lemma insert_sorted_perm (x : A) (l : list A) :
  Permutation (insert_sorted leb x l) (x :: l).
Proof.
  induction l as [|y l IH]; simpl.
  - apply Permutation_refl.
  - destruct (leb y x).
    + eapply perm_trans; [apply perm_skip, IH | apply perm_swap].
    + apply Permutation_refl.
Qed.

Lemma sort_perm (l : list A) : Permutation (sort leb l) l.
Proof.
  unfold sort.
  assert (H : forall acc, Permutation
            (fold_left (fun acc x => insert_sorted leb x acc) l acc) (l ++ acc)).
  { induction l as [|x l IH]; intros acc; simpl.
    - apply Permutation_refl.
    - eapply perm_trans; [apply IH|].
      eapply perm_trans; [apply Permutation_app_head, insert_sorted_perm|].
      apply Permutation_sym, Permutation_middle. }
  specialize (H []). rewrite app_nil_r in H. exact H.
Qed.

Lemma sort_In (l : list A) (x : A) : In x (sort leb l) <-> In x l.
Proof.
  split; apply Permutation_in; [apply sort_perm | apply Permutation_sym, sort_perm].
Qed.

Lemma insert_sorted_ordered (x : A) (l : list A) :
  (forall a b, leb a b = true \/ leb b a = true) ->
  ordered leb l = true -> ordered leb (insert_sorted leb x l) = true.
Proof.
  intros T. induction l as [|y l IH]; intros H.
  - reflexivity.
  - simpl. destruct (leb y x) eqn:E.
    + destruct l as [|z l].
      * simpl. rewrite E. reflexivity.
      * simpl in H. apply andb_true_iff in H. destruct H as [Hyz Hl].
        specialize (IH Hl). simpl in IH. simpl.
        destruct (leb z x) eqn:Ez.
        -- rewrite Hyz. exact IH.
        -- rewrite E. exact IH.
    + destruct (T x y) as [Hxy|Hyx]; [|rewrite Hyx in E; discriminate].
      change (leb x y && ordered leb (y :: l) = true).
      rewrite Hxy, H. reflexivity.
Qed.

(** The result of the sort is in order. *)
Lemma sort_ordered (l : list A) :
  (forall a b, leb a b = true \/ leb b a = true) ->
  ordered leb (sort leb l) = true.
Proof.
  intros T. unfold sort.
  assert (H : forall acc, ordered leb acc = true ->
            ordered leb (fold_left (fun acc x => insert_sorted leb x acc) l acc) = true).
  { induction l as [|x l IH]; intros acc Hacc; simpl.
    - exact Hacc.
    - apply IH. apply insert_sorted_ordered; assumption. }
  apply H. reflexivity.
Qed.

End SortFacts.

(* ================================================================== *)
(** * The Normalizer *)

Lemma rename_as_raw (r : Row) : rename (as_raw r) = r.
Proof. destruct r; reflexivity. Qed.

Lemma as_raw_rename (r : Raw.Row) : as_raw (rename r) = r.
Proof. destruct r; reflexivity. Qed.

Lemma fillna_notnull (v : string) (c : cell) : notnull (fillna v c) = true.
Proof. destruct c; reflexivity. Qed.

Lemma fillna_fixed (v : string) (c : cell) : notnull c = true -> fillna v c = c.
Proof. destruct c; [reflexivity | discriminate]. Qed.

(** What [get_dataframe] guarantees of every row it returns: the two date
    columns hold a value and the five categorical columns hold text. *)
Lemma preprocess_postcondition (snow_df : list Raw.Row) (r : Row) :
  In r (preprocess snow_df) -> dates_present r /\ categoricals_present r.
Proof.
  unfold preprocess. intros H.
  apply in_map_iff in H. destruct H as [r1 [<- H]].
  apply in_map_iff in H. destruct H as [r0 [<- H]].
  unfold dropna_dates in H. apply filter_In in H. destruct H as [_ H].
  apply andb_true_iff in H. destruct H as [H1 H2].
  split.
  - split; assumption.
  - unfold categoricals_present. simpl. repeat split; apply fillna_notnull.
Qed.

Lemma fill_unknown_fixed (r : Row) :
  categoricals_present r -> fill_unknown (as_raw r) = as_raw r.
Proof.
  intros (H1 & H2 & H3 & H4 & H5). destruct r; simpl in *.
  unfold fill_unknown; simpl.
  rewrite !fillna_fixed by assumption. reflexivity.
Qed.

(** On a frame that already satisfies the postcondition, only the duplicate
    removal has an effect. *)
Lemma preprocess_on_normalized (df : list Row) :
  (forall r, In r df -> dates_present r /\ categoricals_present r) ->
  preprocess (map as_raw df) = drop_duplicates Row_eq_dec df.
Proof.
  intros Hdf. unfold preprocess, drop_duplicates.
  change (@nil Raw.Row) with (map as_raw (@nil Row)).
  rewrite (keep_first_map Row_eq_dec Raw.Row_eq_dec as_raw rename)
    by apply rename_as_raw.
  assert (Hsub : forall r, In r (keep_first Row_eq_dec [] df) ->
                           dates_present r /\ categoricals_present r).
  { intros r Hr. apply keep_first_In in Hr. apply Hdf. tauto. }
  revert Hsub. generalize (keep_first Row_eq_dec [] df). intros l Hl.
  unfold dropna_dates. rewrite filter_all.
  - rewrite map_map. rewrite map_map. apply map_fixed.
    intros r Hr. rewrite fill_unknown_fixed by (apply Hl; assumption).
    apply rename_as_raw.
  - intros x Hx. apply in_map_iff in Hx. destruct Hx as [r [<- Hr]].
    destruct (Hl r Hr) as [[H1 H2] _]. simpl. rewrite H1, H2. reflexivity.
Qed.

(** Rows that survive the coercion of the dates and the drop that follows
    it on the Daily Inventory page carry two timestamps. *)
Lemma daily_inventory_dates_are_timestamps (df : list Row) (r : Row) :
  In r (daily_inventory_dates df) ->
  (exists t, Event_Date r = DTs t) /\ (exists t, Transaction_Date r = DTs t).
Proof.
  unfold daily_inventory_dates, dropna_event_dates. intros H.
  apply filter_In in H. destruct H as [H Hn].
  apply in_map_iff in H. destruct H as [r0 [<- _]].
  simpl in *. apply andb_true_iff in Hn. destruct Hn as [H1 H2].
  split.
  - destruct (Event_Date r0); simpl in *; try discriminate. eauto.
  - destruct (Transaction_Date r0); simpl in *; try discriminate. eauto.
Qed.

(* ================================================================== *)
(** * Sums over groups *)

Lemma col_sum_perm {R : Type} (f : R -> Z) (a b : list R) :
  Permutation a b -> col_sum f a = col_sum f b.
Proof. induction 1; simpl; lia. Qed.

Lemma col_sum_map {R S : Type} (f : S -> Z) (g : R -> S) (l : list R) :
  col_sum f (map g l) = col_sum (fun r => f (g r)) l.
Proof. induction l as [|x l IH]; simpl; [reflexivity | rewrite IH; reflexivity]. Qed.

Lemma col_sum_ext {R : Type} (f g : R -> Z) (l : list R) :
  (forall r, In r l -> f r = g r) -> col_sum f l = col_sum g l.
Proof.
  induction l as [|x l IH]; intros H; simpl; [reflexivity|].
  rewrite (H x) by (simpl; auto). rewrite IH; [reflexivity|].
  intros r Hr. apply H. simpl. auto.
Qed.

Lemma col_sum_plus {R : Type} (f g : R -> Z) (l : list R) :
  col_sum (fun r => f r + g r) l = col_sum f l + col_sum g l.
Proof. induction l as [|x l IH]; simpl; [reflexivity | rewrite IH; lia]. Qed.

Lemma col_sum_zero {R : Type} (l : list R) : col_sum (fun _ => 0) l = 0.
Proof. induction l as [|x l IH]; simpl; [reflexivity | rewrite IH; reflexivity]. Qed.

Section GroupFacts.
Context {R K : Type}.
Context (K_eq_dec : forall a b : K, {a = b} + {a <> b}).
Context (K_leb : K -> K -> bool).
Context (key : R -> option K).

(** Among distinct keys, a row counts for its own key only. *)
Lemma one_group_per_row (v : Z) (r : R) (ks : list K) :
  NoDup ks ->
  col_sum (fun k => if has_key K_eq_dec key k r then v else 0) ks
  = if keyed_in K_eq_dec key ks r then v else 0.
Proof.
  unfold keyed_in, has_key. destruct (key r) as [k0|].
  - induction ks as [|k ks IH]; intros ND; simpl.
    + reflexivity.
    + inversion ND as [|? ? Hk ND']; subst. rewrite (IH ND').
      unfold mem. simpl.
      destruct (K_eq_dec k k0) as [->|N].
      * destruct (in_dec K_eq_dec k0 ks); [contradiction|]. lia.
      * destruct (in_dec K_eq_dec k0 ks); reflexivity.
  - intros _. apply col_sum_zero.
Qed.

(** Summing a column group by group, over distinct keys, is summing it
    over the rows whose key is among them. *)
Lemma sum_over_groups (f : R -> Z) (ks : list K) (df : list R) :
  NoDup ks ->
  col_sum (fun k => col_sum f (filter (has_key K_eq_dec key k) df)) ks
  = col_sum f (filter (keyed_in K_eq_dec key ks) df).
Proof.
  intros ND. induction df as [|r df IH]; simpl.
  - apply col_sum_zero.
  - rewrite (col_sum_ext _
      (fun k => (if has_key K_eq_dec key k r then f r else 0)
                + col_sum f (filter (has_key K_eq_dec key k) df))).
    + rewrite col_sum_plus, IH, one_group_per_row by assumption.
      destruct (keyed_in K_eq_dec key ks r); simpl; lia.
    + intros k _. destruct (has_key K_eq_dec key k r); simpl; lia.
Qed.

Lemma present_keys_In (df : list R) (k : K) :
  In k (present_keys key df) <-> exists r, In r df /\ key r = Some k.
Proof.
  unfold present_keys. rewrite in_flat_map. split.
  - intros [r [Hr Hk]]. exists r. split; [assumption|].
    destruct (key r); simpl in Hk; [|contradiction].
    destruct Hk as [->|[]]. reflexivity.
  - intros [r [Hr Hk]]. exists r. split; [assumption|].
    rewrite Hk. simpl. auto.
Qed.

(** The groups of [groupby] hold, between them, the rows that have a key:
    the sum of the group sums is the sum over those rows. *)
Lemma groupby_sums (f : R -> Z) (df : list R) :
  col_sum (fun kg => col_sum f (snd kg)) (groupby K_eq_dec K_leb key df)
  = col_sum f (filter (fun r => notnull (key r)) df).
Proof.
  unfold groupby. rewrite col_sum_map. simpl.
  rewrite (col_sum_perm _ _ _ (sort_perm K_leb _)).
  rewrite sum_over_groups by apply unique_NoDup.
  f_equal. apply filter_ext_in. intros r Hr.
  unfold keyed_in. destruct (key r) as [k|] eqn:E; [|reflexivity].
  simpl. apply mem_true_iff. apply unique_In. apply present_keys_In.
  exists r. auto.
Qed.

(** Every group of [groupby] has at least one row. *)
Lemma groupby_groups_inhabited (df : list R) (kg : K * list R) :
  In kg (groupby K_eq_dec K_leb key df) -> snd kg <> [].
Proof.
  unfold groupby. intros H. apply in_map_iff in H.
  destruct H as [k [<- Hk]]. simpl.
  apply sort_In, unique_In, present_keys_In in Hk.
  destruct Hk as [r [Hr Hk]].
  assert (Hin : In r (filter (has_key K_eq_dec key k) df)).
  { apply filter_In. split; [assumption|]. unfold has_key. rewrite Hk.
    destruct (K_eq_dec k k); [reflexivity | contradiction]. }
  intros E. rewrite E in Hin. contradiction.
Qed.

End GroupFacts.

(* ================================================================== *)
(** * Derived fields *)

(** C7.  For a record whose event date is a timestamp, the derived season is
    Winter when the month is December, January or February, Spring for March
    to May, Summer for June to August and Fall for September to November. *)
Theorem season_of_month (r : Row) (t : Timestamp) :
  Event_Date r = DTs t ->
  (month t = 12 \/ month t = 1 \/ month t = 2 -> Season r = Some "Winter")
  /\ (3 <= month t <= 5 -> Season r = Some "Spring")
  /\ (6 <= month t <= 8 -> Season r = Some "Summer")
  /\ (9 <= month t <= 11 -> Season r = Some "Fall").
Proof.
  intros E. unfold Season. rewrite E. unfold get_season, month_of, month_in.
  repeat split.
  - intros [H|[H|H]]; rewrite H; reflexivity.
  - intros H.
    assert (C : month t = 3 \/ month t = 4 \/ month t = 5) by lia.
    destruct C as [C|[C|C]]; rewrite C; reflexivity.
  - intros H.
    assert (C : month t = 6 \/ month t = 7 \/ month t = 8) by lia.
    destruct C as [C|[C|C]]; rewrite C; reflexivity.
  - intros H.
    assert (C : month t = 9 \/ month t = 10 \/ month t = 11) by lia.
    destruct C as [C|[C|C]]; rewrite C; reflexivity.
Qed.

Lemma season_of_month_witness :
  Season (sample_row "Cabana" "Pool" "card" "Towel" 1 1 1 "c" (at_midnight 2023 12 25))
  = Some "Winter"
  /\ Season (sample_row "Cabana" "Pool" "card" "Towel" 1 1 1 "c" (at_midnight 2023 4 1))
     = Some "Spring"
  /\ Season (sample_row "Cabana" "Pool" "card" "Towel" 1 1 1 "c" (at_midnight 2023 7 4))
     = Some "Summer"
  /\ Season (sample_row "Cabana" "Pool" "card" "Towel" 1 1 1 "c" (at_midnight 2023 10 2))
     = Some "Fall".
Proof.
  split; [|split; [|split]].
  - apply (proj1 (season_of_month (sample_row "Cabana" "Pool" "card" "Towel" 1 1 1 "c" (at_midnight 2023 12 25))
                (mkTs 2023 12 25 0) eq_refl)).
    left. reflexivity.
  - apply (proj1 (proj2 (season_of_month (sample_row "Cabana" "Pool" "card" "Towel" 1 1 1 "c" (at_midnight 2023 4 1))
                (mkTs 2023 4 1 0) eq_refl))).
    simpl. lia.
  - apply (proj1 (proj2 (proj2 (season_of_month (sample_row "Cabana" "Pool" "card" "Towel" 1 1 1 "c" (at_midnight 2023 7 4))
                (mkTs 2023 7 4 0) eq_refl)))).
    simpl. lia.
  - apply (proj2 (proj2 (proj2 (season_of_month (sample_row "Cabana" "Pool" "card" "Towel" 1 1 1 "c" (at_midnight 2023 10 2))
                (mkTs 2023 10 2 0) eq_refl)))).
    simpl. lia.
Defined.

(** After the coercion a date cell is NaT or a timestamp. *)
Lemma coerce_dates_event_date (r : Row) :
  Event_Date (coerce_dates r) = DNull
  \/ exists t, Event_Date (coerce_dates r) = DTs t.
Proof. simpl. destruct (Event_Date r); simpl; eauto. Qed.

(** A record without a timestamp for its event date has no season, and its
    year is 0. *)
Lemma season_of_missing_date (r : Row) :
  (forall t, Event_Date r <> DTs t) ->
  Season r = None /\ Year r = 0 /\ YearSeason r = None.
Proof.
  intros H. unfold YearSeason, Season, Year.
  destruct (Event_Date r) as [| |t]; try (repeat split; reflexivity).
  exfalso. apply (H t). reflexivity.
Qed.

Lemma present_and_positive_iff (v : option Z) :
  present_and_positive v = true <-> exists n, v = Some n /\ 0 < n.
Proof.
  unfold present_and_positive. destruct v as [n|].
  - rewrite Z.ltb_lt. split.
    + intros H. exists n. auto.
    + intros [m [E H]]. inversion E. subst. exact H.
  - split; [discriminate | intros [m [E _]]; discriminate].
Qed.

(** C8.  The yielding flag of a record is "yes" exactly when one of the two
    yield indicators is present and greater than 0, and "no" exactly when
    neither is. *)
Theorem yielding_flag (x : Row) :
  (yielding x = "yes" <->
     (exists v, ADDTIER_YIELD_ALLITEMS x = Some v /\ 0 < v)
     \/ (exists v, TIER_TIER_ALLITEMS x = Some v /\ 0 < v))
  /\ (yielding x = "no" <->
     ~ ((exists v, ADDTIER_YIELD_ALLITEMS x = Some v /\ 0 < v)
        \/ (exists v, TIER_TIER_ALLITEMS x = Some v /\ 0 < v))).
Proof.
  unfold yielding.
  rewrite <- !present_and_positive_iff.
  destruct (present_and_positive (ADDTIER_YIELD_ALLITEMS x));
    destruct (present_and_positive (TIER_TIER_ALLITEMS x)); simpl;
    (split; split; intros H;
     try reflexivity; try discriminate; try tauto;
     try (destruct H as [H|H]; discriminate);
     try (intros [C|C]; discriminate);
     try (exfalso; apply H; auto)).
Qed.

(* ================================================================== *)
(** * Percentage of stock sold *)





Lemma inventory_grouped_row (ef : string) (df : list Row) (g : InventoryRow) :
  In g (inventory_grouped ef df) ->
  PERCENTAGE_SALE g = percentage_sale (inv_Quantity g) (inv_Stock g)
  /\ exists stock, inv_Stock g = Some stock.
Proof.
  unfold inventory_grouped. intros H. apply in_map_iff in H.
  destruct H as [kg [<- Hkg]]. split; [reflexivity|].
  apply groupby_groups_inhabited in Hkg. simpl.
  destruct (snd kg) as [|r rows]; [contradiction|].
  simpl. eauto.
Qed.




(* ================================================================== *)
(** * Running the Normalizer again *)

(** C9, as the code has it.  Run on its own output (read back under the
    warehouse column names), the Normalizer changes no field value and
    removes only rows that repeat an earlier row of that output: the result
    is the output with its duplicate rows removed.  A further run returns
    that same record set. *)
Theorem preprocess_again (snow_df : list Raw.Row) :
  preprocess (map as_raw (preprocess snow_df))
  = drop_duplicates Row_eq_dec (preprocess snow_df)
  /\ preprocess (map as_raw (drop_duplicates Row_eq_dec (preprocess snow_df)))
     = drop_duplicates Row_eq_dec (preprocess snow_df).
Proof.
  split.
  - apply preprocess_on_normalized. intros r. apply preprocess_postcondition.
  - rewrite preprocess_on_normalized.
    + apply drop_duplicates_idempotent.
    + intros r Hr. apply drop_duplicates_In in Hr.
      apply (preprocess_postcondition snow_df). exact Hr.
Qed.

(** When the first output has no repeated row, the second run returns it
    unchanged. *)
Lemma preprocess_again_without_repeats (snow_df : list Raw.Row) :
  NoDup (preprocess snow_df) ->
  preprocess (map as_raw (preprocess snow_df)) = preprocess snow_df.
Proof.
  intros ND. rewrite preprocess_on_normalized.
  - apply drop_duplicates_fixed. exact ND.
  - intros r. apply preprocess_postcondition.
Qed.

(** C9 as written fails: duplicates are removed before the missing
    categoricals are filled, so two fetched rows that differ only in a venue
    name that is missing in one and "Unknown" in the other both survive the
    first run, as two equal rows, and the second run removes one of them. *)
Lemma second_run_removes_a_row :
  List.length (preprocess null_and_unknown_venue) = 2%nat
  /\ List.length (preprocess (map as_raw (preprocess null_and_unknown_venue))) = 1%nat
  /\ preprocess (map as_raw (preprocess null_and_unknown_venue))
     <> preprocess null_and_unknown_venue.
Proof.
  split; [vm_compute; reflexivity|].
  split; [vm_compute; reflexivity|].
  intros H. apply (f_equal (@List.length Row)) in H.
  vm_compute in H. discriminate H.
Qed.

(* ================================================================== *)
(** * Records with a date that does not convert *)

(** Every fetched row whose event date is present but does not convert is
    kept by [get_dataframe] and reaches the derived columns of the Seasonal
    Analysis page with a null event date. *)
Lemma unconvertible_date_survives (snow_df : list Raw.Row) (r : Raw.Row)
    (raw : string) :
  In r snow_df ->
  Raw.TI_CALDATE r = DInvalid raw ->
  notnull_date (Raw.TB_TRANSDATE r) = true ->
  exists d, In d (seasonal_derived (preprocess snow_df))
    /\ Event_Date (base d) = DNull
    /\ col_Season d = None /\ col_Year d = 0 /\ col_YearSeason d = None.
Proof.
  intros Hin Hdate Htrans.
  set (row := coerce_dates (rename (fill_unknown r))).
  assert (E : Event_Date row = DNull).
  { unfold row. simpl. rewrite Hdate. reflexivity. }
  exists {| base := row; col_Season := Season row; col_Year := Year row;
            col_YearSeason := YearSeason row |}.
  split.
  - unfold seasonal_derived, preprocess.
    apply in_map_iff. exists row. split; [reflexivity|].
    unfold row. apply in_map, in_map, in_map.
    unfold dropna_dates. apply filter_In. split.
    + apply drop_duplicates_In. exact Hin.
    + rewrite Hdate, Htrans. reflexivity.
  - simpl. split; [exact E|].
    apply season_of_missing_date. intros t C. rewrite E in C. discriminate.
Qed.

(** C3 at the failing input.  A fetched row whose event date is present but
    does not convert passes [get_dataframe]; on the Seasonal Analysis page
    the coercion turns its event date into NaT and the row stays in the
    frame, so the derived columns are computed on a record with a null event
    date (no season, year 0, no year-season label).  On the Daily Inventory
    page the same row is dropped after the coercion. *)
Theorem null_event_date_reaches_derived_fields :
  map (fun r => (Event_Date (base r), col_Season r, col_Year r, col_YearSeason r))
      (seasonal_derived (preprocess fetched_with_bad_date))
  = [(at_midnight 2023 4 1, Some "Spring", 2023, Some "2023 Spring");
     (DNull, None, 0, None)]
  /\ map Event_Date (daily_inventory_dates (preprocess fetched_with_bad_date))
     = [at_midnight 2023 4 1].
Proof. split; vm_compute; reflexivity. Qed.

(* ================================================================== *)
(** * Sums of the grouped frame *)

Lemma grouped_summary_sums (show_average : bool) (group_by_cols : list column)
    (df : list Row) :
  col_sum Value_sum (grouped_summary show_average group_by_cols df)
  = col_sum Value (filter (fun r => notnull (row_key group_by_cols r)) df)
  /\ col_sum Quantity_sum (grouped_summary show_average group_by_cols df)
     = col_sum Quantity (filter (fun r => notnull (row_key group_by_cols r)) df)
  /\ col_sum Guests_sum (grouped_summary show_average group_by_cols df)
     = col_sum Guests (filter (fun r => notnull (row_key group_by_cols r)) df).
Proof.
  unfold grouped_summary, groupby_cols.
  rewrite !col_sum_map. simpl.
  rewrite <- !(groupby_sums key_eq_dec key_leb (row_key group_by_cols)).
  repeat split; reflexivity.
Qed.




(** The filters only remove rows. *)
Lemma narrow_incl (c : Row -> cell) (selected : list cell) (df : list Row) (r : Row) :
  In r (narrow c selected df) -> In r df.
Proof.
  unfold narrow, where_isin. destruct (nonempty selected); [|auto].
  intros H. apply filter_In in H. tauto.
Qed.

Lemma apply_date_filter_incl (ui : UI) (df : list Row) (r : Row) :
  In r (apply_date_filter ui df) -> In r df.
Proof.
  unfold apply_date_filter.
  destruct (date_input ui) as [|a [|b [|c l]]]; auto.
  intros H. apply filter_In in H. tauto.
Qed.

Lemma pool_yield_filtered_incl (ui : UI) (df0 : list Row) (r : Row) :
  In r (py_filtered_df (pool_yield_run ui df0)) -> In r (map coerce_dates df0).
Proof.
  unfold pool_yield_run. simpl. intros H.
  apply apply_date_filter_incl in H.
  repeat (apply narrow_incl in H). exact H.
Qed.

Lemma append_if_In {A : Type} (selected : list A) (c c' : column) :
  In c' (append_if selected c) -> c' = c.
Proof.
  unfold append_if. destruct (nonempty selected); simpl; [|contradiction].
  intros [H|[]]. auto.
Qed.

Lemma pool_yield_group_by_cols_In (ui : UI) (df0 : list Row) (c : column) :
  In c (py_group_by_cols (pool_yield_run ui df0)) ->
  c = cYearMonth \/ c = cVenue_Name \/ c = cEvent_Name \/ c = cItem_Name
  \/ c = cyielding.
Proof.
  unfold pool_yield_run. simpl. intros [H|H]; [auto|].
  repeat (apply in_app_or in H; destruct H as [H|H];
          [apply append_if_In in H; auto 6|]).
  apply append_if_In in H. auto 6.
Qed.

Lemma row_key_present (group_by_cols : list column) (r : Row) :
  (forall c, In c group_by_cols -> column_value c r <> None) ->
  row_key group_by_cols r <> None.
Proof.
  induction group_by_cols as [|c cols IH]; intros H; simpl.
  - discriminate.
  - destruct (column_value c r) eqn:E.
    + destruct (row_key cols r) eqn:E'; [discriminate|].
      exfalso. apply IH; [|reflexivity]. intros c' Hc'. apply H. simpl. auto.
    + exfalso. apply (H c); simpl; auto.
Qed.

(** On the Pool Yielding page every row of the frame returned by
    [get_dataframe] has a value in each grouping column, whatever is picked:
    the per-group sums always add up to the sums over the filtered frame. *)
Lemma pool_yield_group_sums (ui : UI) (snow_df : list Raw.Row) :
  col_sum Value_sum (py_df_grouped (pool_yield_run ui (preprocess snow_df)))
  = col_sum Value (py_filtered_df (pool_yield_run ui (preprocess snow_df)))
  /\ col_sum Quantity_sum (py_df_grouped (pool_yield_run ui (preprocess snow_df)))
     = col_sum Quantity (py_filtered_df (pool_yield_run ui (preprocess snow_df)))
  /\ col_sum Guests_sum (py_df_grouped (pool_yield_run ui (preprocess snow_df)))
     = col_sum Guests (py_filtered_df (pool_yield_run ui (preprocess snow_df))).
Proof.
  set (run := pool_yield_run ui (preprocess snow_df)).
  assert (E : filter (fun r => notnull (row_key (py_group_by_cols run) r))
                     (py_filtered_df run) = py_filtered_df run).
  { apply filter_all. intros r Hr.
    assert (K : row_key (py_group_by_cols run) r <> None).
    { apply row_key_present. intros c Hc.
      apply pool_yield_group_by_cols_In in Hc.
      apply pool_yield_filtered_incl in Hr.
      apply in_map_iff in Hr. destruct Hr as [r0 [<- Hr0]].
      apply preprocess_postcondition in Hr0.
      destruct Hr0 as [_ (H1 & H2 & H3 & H4 & H5)].
      destruct Hc as [->|[->|[->|[->| ->]]]]; simpl; try discriminate.
      - destruct (Venue_Name r0); [discriminate | discriminate H1].
      - destruct (Event_Name r0); [discriminate | discriminate H4].
      - destruct (Item_Name r0); [discriminate | discriminate H5]. }
    destruct (row_key (py_group_by_cols run) r); [reflexivity | contradiction]. }
  pose proof (grouped_summary_sums (checkbox_show_average ui)
                (py_group_by_cols run) (py_filtered_df run)) as S.
  rewrite E in S. exact S.
Qed.

(* ================================================================== *)
(** * Order of the year-season buckets *)

Lemma season_key_leb_total (a b : Z * nat) :
  season_key_leb a b = true \/ season_key_leb b a = true.
Proof.
  unfold season_key_leb. destruct a as [y i], b as [z j]. simpl.
  destruct (Z.ltb_spec y z); [left; reflexivity|].
  destruct (Z.ltb_spec z y); [right; reflexivity|].
  assert (y = z) by lia. subst. rewrite Z.eqb_refl. simpl.
  destruct (Nat.leb_spec i j); [left; reflexivity|].
  right. apply Nat.leb_le. lia.
Qed.

(** The key computed by the page is the year and the place in the cycle. *)
Lemma season_key_label (x : string) (k : Z * nat) :
  season_key x = Ok k -> label_year_season x = Some k.
Proof.
  unfold season_key, label_year_season, word.
  destruct (split x) as [|yx [|sx ws]]; cbn [nth_error bind]; try discriminate.
  - destruct (int_of_str yx); cbn [bind]; discriminate.
  - destruct (int_of_str yx); cbn [bind]; [|discriminate].
    change (list_index sx seasons_order) with (cycle_index sx).
    destruct (cycle_index sx); cbn [bind]; [|discriminate].
    intros H. inversion H. reflexivity.
Qed.

Lemma mapM_keyed (labels : list string) (keyed : list (Z * nat * string)) :
  mapM (fun x => k <- season_key x ;; Ok (k, x)) labels = Ok keyed ->
  map snd keyed = labels
  /\ Forall (fun p => label_year_season (snd p) = Some (fst p)) keyed.
Proof.
  revert keyed. induction labels as [|x labels IH]; intros keyed; simpl.
  - intros H. inversion H. split; [reflexivity | constructor].
  - destruct (season_key x) as [k|e] eqn:E; simpl; [|discriminate].
    destruct (mapM _ labels) as [ks|e]; simpl; [|discriminate].
    intros H. inversion H. subst. destruct (IH ks eq_refl) as [H1 H2].
    simpl. split; [f_equal; exact H1|].
    constructor; [|exact H2]. simpl. apply season_key_label. exact E.
Qed.

Lemma ordered_map {A B : Type} (f : A -> B) (leA : A -> A -> bool)
    (leB : B -> B -> bool) (l : list A) :
  (forall a b, In a l -> In b l -> leB (f a) (f b) = leA a b) ->
  ordered leB (map f l) = ordered leA l.
Proof.
  induction l as [|x l IH]; intros H.
  - reflexivity.
  - destruct l as [|y l]; [reflexivity|].
    change (leB (f x) (f y) && ordered leB (map f (y :: l))
            = leA x y && ordered leA (y :: l)).
    rewrite H by (simpl; auto). rewrite IH; [reflexivity|].
    intros a b Ha Hb. apply H; simpl; auto.
Qed.

(** Whenever the keys of all labels can be computed, [sorted_seasons]
    returns the same labels in calendar order. *)
Lemma sorted_seasons_in_calendar_order (labels out : list string) :
  sorted_seasons labels = Ok out ->
  Permutation out labels /\ ordered calendar_leb (map Some out) = true.
Proof.
  unfold sorted_seasons.
  destruct (mapM _ labels) as [keyed|e] eqn:E; simpl; [|discriminate].
  intros H. inversion H. subst. clear H.
  apply mapM_keyed in E. destruct E as [E1 E2].
  set (le := fun a b : Z * nat * string => season_key_leb (fst a) (fst b)).
  split.
  - rewrite <- E1. apply Permutation_map. apply sort_perm.
  - rewrite map_map.
    rewrite (ordered_map (fun p => Some (snd p)) le calendar_leb).
    + apply sort_ordered. intros a b. apply season_key_leb_total.
    + intros a b Ha Hb.
      apply sort_In in Ha. apply sort_In in Hb.
      rewrite Forall_forall in E2.
      unfold calendar_leb. rewrite (E2 a Ha), (E2 b Hb).
      destruct a as [[n i] x], b as [[m j] y]. reflexivity.
Qed.

Lemma append_empty_r (s : string) : (s ++ "")%string = s.
Proof. induction s as [|c s IH]; simpl; [reflexivity | rewrite IH; reflexivity]. Qed.

Lemma append_assoc (a b c : string) :
  ((a ++ b) ++ c)%string = (a ++ (b ++ c))%string.
Proof. induction a as [|x a IH]; simpl; [reflexivity | rewrite IH; reflexivity]. Qed.

(** A run of non-blank characters is read as part of the current word. *)
Lemma split_aux_word (a : string) (cur rest : string) :
  no_blank a = true ->
  split_aux cur (a ++ rest) = split_aux (cur ++ a) rest.
Proof.
  revert cur. induction a as [|c a IH]; intros cur H; simpl.
  - rewrite append_empty_r. reflexivity.
  - simpl in H. apply andb_true_iff in H. destruct H as [Hc Ha].
    apply negb_true_iff in Hc. rewrite Hc.
    rewrite IH by assumption. rewrite append_assoc. reflexivity.
Qed.

(** Two words separated by one space split into the two words. *)
Lemma split_two_words (a b : string) :
  no_blank a = true -> no_blank b = true -> a <> "" -> b <> "" ->
  split (a ++ " " ++ b) = [a; b].
Proof.
  intros Ha Hb Na Nb. unfold split.
  rewrite split_aux_word by assumption. simpl.
  destruct a as [|c a]; [contradiction|].
  rewrite <- (append_empty_r b) at 1.
  rewrite split_aux_word by assumption. simpl.
  destruct b as [|d b]; [contradiction|]. reflexivity.
Qed.

Lemma digits_no_blank (d : uint) : no_blank (NilEmpty.string_of_uint d) = true.
Proof. induction d; simpl; try rewrite IHd; reflexivity. Qed.

Lemma str_of_Z_no_blank (n : Z) : no_blank (str_of_Z n) = true.
Proof.
  unfold str_of_Z. destruct n as [|p|p]; simpl.
  - reflexivity.
  - unfold NilZero.string_of_uint.
    destruct (Pos.to_uint p); try apply digits_no_blank. reflexivity.
  - unfold NilZero.string_of_uint.
    destruct (Pos.to_uint p); try apply digits_no_blank. reflexivity.
Qed.

Lemma str_of_Z_not_empty (n : Z) : str_of_Z n <> "".
Proof.
  unfold str_of_Z. destruct n as [|p|p]; simpl; try discriminate.
  unfold NilZero.string_of_uint.
  destruct (Pos.to_uint p); simpl; discriminate.
Qed.

(** [int(str(n))] is [n]. *)
Lemma int_of_str_of_Z (n : Z) : int_of_str (str_of_Z n) = Some n.
Proof.
  unfold int_of_str, str_of_Z. rewrite NilZero.isi.
  - simpl. rewrite DecimalZ.of_to. reflexivity.
  - destruct n as [|p|p]; simpl; try discriminate.
    intros H. inversion H as [H']. apply (DecimalPos.Unsigned.to_uint_nonnil p H').
  - destruct n as [|p|p]; simpl; try discriminate.
    intros H. inversion H as [H']. apply (DecimalPos.Unsigned.to_uint_nonnil p H').
Qed.

(** The label of a record with a timestamp: its year, and a season of the
    cycle at the place the page's key gives it. *)
Lemma season_key_of_YearSeason (r : Row) (t : Timestamp) :
  Event_Date r = DTs t -> 1 <= month t <= 12 ->
  exists label i,
    YearSeason r = Some label /\ season_key label = Ok (year t, i).
Proof.
  intros E Hm. unfold YearSeason, Season, Year. rewrite E.
  assert (S : exists s i, get_season (DTs t) = Some s
                          /\ no_blank s = true /\ s <> ""
                          /\ list_index s seasons_order = Some i).
  { unfold get_season, month_of, month_in.
    assert (C : month t = 1 \/ month t = 2 \/ month t = 3 \/ month t = 4
                \/ month t = 5 \/ month t = 6 \/ month t = 7 \/ month t = 8
                \/ month t = 9 \/ month t = 10 \/ month t = 11 \/ month t = 12)
      by lia.
    repeat (destruct C as [C|C]; [rewrite C; simpl; eexists; eexists;
      repeat split; try reflexivity; discriminate |]).
    rewrite C; simpl; eexists; eexists;
      repeat split; try reflexivity; discriminate. }
  destruct S as [s [i [Es [Hb [Hn Hi]]]]]. rewrite Es.
  exists (str_of_Z (year t) ++ " " ++ s)%string, i. split; [reflexivity|].
  unfold season_key, word.
  rewrite (split_two_words (str_of_Z (year t)) s)
    by (auto using str_of_Z_no_blank, str_of_Z_not_empty).
  cbn [nth_error bind]. rewrite int_of_str_of_Z. cbn [bind].
  rewrite Hi. reflexivity.
Qed.

Lemma mapM_total {A B : Type} (f : A -> result B) (l : list A) :
  Forall (fun x => exists y, f x = Ok y) l -> exists ys, mapM f l = Ok ys.
Proof.
  induction 1 as [|x l [y Hy] _ [ys IH]]; simpl.
  - eauto.
  - rewrite Hy. simpl. rewrite IH. simpl. eauto.
Qed.

(** On the labels of records whose event date is a timestamp,
    [sorted_seasons] raises nothing. *)
Lemma sorted_seasons_total (df : list Row) (labels : list string) :
  Forall (fun r => exists t, Event_Date r = DTs t /\ 1 <= month t <= 12) df ->
  map YearSeason df = map Some labels ->
  exists out, sorted_seasons labels = Ok out.
Proof.
  intros Hdf Hl. unfold sorted_seasons.
  destruct (mapM_total (fun x => k <- season_key x ;; Ok (k, x)) labels) as [ks Hks].
  - revert labels Hl. induction Hdf as [|r df [t [E Hm]] _ IH]; intros labels Hl.
    + destruct labels; [constructor | discriminate].
    + destruct labels as [|x labels]; [discriminate|].
      simpl in Hl. inversion Hl as [[Hx Hrest]].
      constructor; [|apply IH; assumption].
      destruct (season_key_of_YearSeason r t E Hm) as [label [i [Hy Hk]]].
      rewrite Hy in Hx. inversion Hx. subst.
      rewrite Hk. simpl. eauto.
  - rewrite Hks. simpl. eauto.
Qed.

(** C2 at the failing input.  With one sale in April 2023 and one in October
    2023 the Seasonal Grouping page shows the bucket "2023 Fall" before the
    bucket "2023 Spring": the grouped frame is sorted by the text of the
    label, which is not the order of the seasons within the year. *)
Theorem fall_is_shown_before_spring :
  exists df_grouped,
    seasonal_grouping_page nothing_picked (Some spring_and_fall) = Shown df_grouped
    /\ YearSeason_labels df_grouped = [Some "2023 Fall"; Some "2023 Spring"]
    /\ ordered calendar_leb (YearSeason_labels df_grouped) = false
    /\ calendar_leb (Some "2023 Spring") (Some "2023 Fall") = true.
Proof.
  eexists. split; [vm_compute; reflexivity|].
  repeat split; vm_compute; reflexivity.
Qed.

(** The Day-of-the-week page orders the same labels by year and by place in
    the cycle of the seasons. *)
Lemma sorted_seasons_example :
  sorted_seasons ["2023 Winter"; "2024 Spring"; "2023 Fall"; "2023 Spring"; "2023 Summer"]
  = Ok ["2023 Spring"; "2023 Summer"; "2023 Fall"; "2023 Winter"; "2024 Spring"].
Proof. vm_compute. reflexivity. Qed.

(* ================================================================== *)
(** * The cascade of the Transaction Type page *)

(** When a venue type and a pay type are picked, the venue names on offer
    are those of the frame narrowed by both, and when a venue name is picked
    as well the item names on offer are those of the frame narrowed by all
    three. *)
Lemma cascade_narrows_when_all_picked (ui : UI) (df : list Row) (c : Cascade) :
  cascade ui df = Ok c ->
  nonempty (selected_venue_type c) = true ->
  nonempty (selected_pay_type c) = true ->
  pay_type_options c = unique_of Pay_Type (narrowed_for_pay_type c df)
  /\ venue_name_options c = unique_of Venue_Name (narrowed_for_venue_name c df)
  /\ (nonempty (selected_venue_name c) = true ->
      item_name_options c = unique_of Item_Name (narrowed_for_item_name c df)).
Proof.
  unfold cascade, narrowed_for_item_name, narrowed_for_venue_name,
    narrowed_for_pay_type, narrow.
  destruct (nonempty (multiselect ui "Select Venue Type" (unique_of Venue_Type df))) eqn:E1.
  - destruct (nonempty (multiselect ui "Select Pay Type" _)) eqn:E2; simpl.
    + destruct (nonempty (multiselect ui "Select Venue Name" _)) eqn:E3; simpl;
        intros H; inversion H; subst; clear H; simpl; intros _ _;
        rewrite ?E1, ?E2, ?E3; auto.
      repeat split. discriminate.
    + destruct (nonempty (multiselect ui "Select Venue Name" _)) eqn:E3; simpl;
        intros H; inversion H; subst; clear H; simpl.
      intros _ C. rewrite E2 in C. discriminate.
  - destruct (nonempty (multiselect ui "Select Pay Type" _)) eqn:E2; simpl.
    + discriminate.
    + destruct (nonempty (multiselect ui "Select Venue Name" _)) eqn:E3; simpl;
        intros H; inversion H; subst; clear H; simpl.
      intros C. rewrite E1 in C. discriminate.
Qed.

(** C5 at the failing input.  With the venue type "Pool" picked and no pay
    type picked, the venue names on offer are those of the whole frame
    (both venues), not those of the frame narrowed by the venue type (the
    pool venue only); the same holds for the item names. *)
Theorem venue_names_offered_from_whole_frame :
  exists c,
    cascade (pick_only "Select Venue Type" [Some "Pool"]) pool_and_bar = Ok c
    /\ selected_venue_type c = [Some "Pool"]
    /\ venue_name_options c = [Some "Cabana"; Some "Lounge"]
    /\ unique_of Venue_Name (narrowed_for_venue_name c pool_and_bar) = [Some "Cabana"]
    /\ item_name_options c = [Some "Towel"; Some "Soda"]
    /\ unique_of Item_Name (narrowed_for_item_name c pool_and_bar) = [Some "Towel"].
Proof.
  eexists. split; [vm_compute; reflexivity|].
  repeat split; vm_compute; reflexivity.
Qed.

(** C10.  On the Transaction Type page, a run in which a pay type is picked
    while no venue type is picked, and a run in which a venue name is picked
    while no pay type is picked, stop with a NameError on a frame that was
    never assigned, instead of producing a filtered frame. *)
Theorem cascade_reads_unassigned_frame (ui : UI) (df0 : list Row) :
  let df := map coerce_dates df0 in
  let venue_types := multiselect ui "Select Venue Type" (unique_of Venue_Type df) in
  let pay_types_offered :=
    if nonempty venue_types
    then unique_of Pay_Type (where_isin Venue_Type venue_types df)
    else unique_of Pay_Type df in
  (venue_types = [] ->
   multiselect ui "Select Pay Type" pay_types_offered <> [] ->
   transaction_type_page ui (Some df0)
   = Raised (NameError "df_pay_type_filtered"))
  /\ (multiselect ui "Select Pay Type" pay_types_offered = [] ->
      multiselect ui "Select Venue Name" (unique_of Venue_Name df) <> [] ->
      transaction_type_page ui (Some df0)
      = Raised (NameError "df_venue_name_filtered")).
Proof.
  unfold transaction_type_page, cascade. cbv zeta. split.
  - intros H1. rewrite H1. simpl. intros H2.
    destruct (multiselect ui "Select Pay Type" _) as [|x xs]; [contradiction|].
    reflexivity.
  - destruct (nonempty (multiselect ui "Select Venue Type" _)).
    + intros H1 H2. rewrite H1. simpl.
      destruct (multiselect ui "Select Venue Name" _) as [|x xs]; [contradiction|].
      reflexivity.
    + intros H1 H2. rewrite H1. simpl.
      destruct (multiselect ui "Select Venue Name" _) as [|x xs]; [contradiction|].
      reflexivity.
Qed.

Lemma cascade_reads_unassigned_frame_witness :
  transaction_type_page (pick_only "Select Pay Type" [Some "card"]) (Some pool_and_bar)
  = Raised (NameError "df_pay_type_filtered")
  /\ transaction_type_page (pick_only "Select Venue Name" [Some "Cabana"]) (Some pool_and_bar)
     = Raised (NameError "df_venue_name_filtered").
Proof.
  split.
  - apply (proj1 (cascade_reads_unassigned_frame
                    (pick_only "Select Pay Type" [Some "card"]) pool_and_bar)).
    + reflexivity.
    + simpl. discriminate.
  - apply (proj2 (cascade_reads_unassigned_frame
                    (pick_only "Select Venue Name" [Some "Cabana"]) pool_and_bar)).
    + reflexivity.
    + simpl. discriminate.
Defined.

(* ================================================================== *)
(** * The filters of the Pool Yielding page *)

Lemma grouped_summary_nil (show_average : bool) (group_by_cols : list column) :
  grouped_summary show_average group_by_cols [] = [].
Proof. reflexivity. Qed.



(* ================================================================== *)
(** * What the Normalizer keeps *)

(** A row is in the frame returned by [get_dataframe] exactly when it is the
    filled and renamed form of a fetched row whose two dates are present:
    no such row is lost and no other row appears. *)
Theorem preprocess_In_iff (snow_df : list Raw.Row) (r : Row) :
  In r (preprocess snow_df) <->
  exists raw, In raw snow_df
    /\ notnull_date (Raw.TI_CALDATE raw) = true
    /\ notnull_date (Raw.TB_TRANSDATE raw) = true
    /\ r = rename (fill_unknown raw).
Proof.
  unfold preprocess, dropna_dates. split.
  - intros H. apply in_map_iff in H. destruct H as [r1 [<- H]].
    apply in_map_iff in H. destruct H as [raw [<- H]].
    apply filter_In in H. destruct H as [H Hd].
    apply drop_duplicates_In in H. apply andb_true_iff in Hd.
    exists raw. tauto.
  - intros [raw [Hin [H1 [H2 ->]]]].
    apply in_map, in_map. apply filter_In. split.
    + apply drop_duplicates_In. exact Hin.
    + rewrite H1, H2. reflexivity.
Qed.

(** On a fetched frame without repeated rows and without null dates the
    Normalizer drops nothing: the output is the input, row by row, filled
    and renamed. *)
Theorem preprocess_of_clean_frame (snow_df : list Raw.Row) :
  NoDup snow_df ->
  (forall raw, In raw snow_df ->
     notnull_date (Raw.TI_CALDATE raw) = true
     /\ notnull_date (Raw.TB_TRANSDATE raw) = true) ->
  preprocess snow_df = map (fun raw => rename (fill_unknown raw)) snow_df.
Proof.
  intros ND Hd. unfold preprocess.
  rewrite drop_duplicates_fixed by assumption.
  unfold dropna_dates. rewrite filter_all.
  - apply map_map.
  - intros raw Hin. destruct (Hd raw Hin) as [H1 H2].
    rewrite H1, H2. reflexivity.
Qed.

Lemma preprocess_of_clean_frame_witness :
  preprocess (map as_raw spring_and_fall)
  = map (fun raw => rename (fill_unknown raw)) (map as_raw spring_and_fall).
Proof.
  apply preprocess_of_clean_frame.
  - simpl. constructor.
    + simpl. intros [H|[]]. discriminate H.
    + constructor; [simpl; tauto | constructor].
  - intros raw Hin. simpl in Hin.
    destruct Hin as [<-|[<-|[]]]; split; reflexivity.
Defined.

Lemma coerce_dates_fixed (r : Row) (t1 t2 : Timestamp) :
  Event_Date r = DTs t1 -> Transaction_Date r = DTs t2 -> coerce_dates r = r.
Proof.
  destruct r; simpl. intros -> ->. reflexivity.
Qed.

(** The rows left by the coercion and the drop that open the Daily Inventory
    page are exactly the rows of the frame whose two dates are timestamps,
    unchanged. *)
Theorem daily_inventory_dates_In_iff (df : list Row) (r : Row) :
  In r (daily_inventory_dates df) <->
  In r df /\ (exists t, Event_Date r = DTs t)
  /\ (exists t, Transaction_Date r = DTs t).
Proof.
  unfold daily_inventory_dates, dropna_event_dates. split.
  - intros H. apply filter_In in H. destruct H as [H Hn].
    apply in_map_iff in H. destruct H as [r0 [E Hin]].
    apply andb_true_iff in Hn. destruct Hn as [H1 H2].
    rewrite <- E in H1, H2. simpl in H1, H2.
    destruct (Event_Date r0) as [| |t1] eqn:E1; simpl in H1; try discriminate.
    destruct (Transaction_Date r0) as [| |t2] eqn:E2; simpl in H2; try discriminate.
    rewrite (coerce_dates_fixed r0 t1 t2 E1 E2) in E. subst r0.
    split; [assumption|]. split; eauto.
  - intros [Hin [[t1 E1] [t2 E2]]]. apply filter_In. split.
    + rewrite <- (coerce_dates_fixed r t1 t2 E1 E2). apply in_map. exact Hin.
    + rewrite E1, E2. reflexivity.
Qed.

(* ================================================================== *)
(** * The date range *)

Lemma ts_compare_refl (a : Timestamp) : ts_compare a a = Eq.
Proof. unfold ts_compare. rewrite !Z.compare_refl. reflexivity. Qed.

Lemma ts_leb_total (a b : Timestamp) : ts_leb a b = true \/ ts_leb b a = true.
Proof.
  unfold ts_leb, ts_compare.
  destruct (Z.compare_spec (year a) (year b)), (Z.compare_spec (year b) (year a));
    try lia; auto.
  destruct (Z.compare_spec (month a) (month b)), (Z.compare_spec (month b) (month a));
    try lia; auto.
  destruct (Z.compare_spec (day a) (day b)), (Z.compare_spec (day b) (day a));
    try lia; auto.
  destruct (Z.compare_spec (time a) (time b)), (Z.compare_spec (time b) (time a));
    try lia; auto.
Qed.

Lemma ts_leb_trans (a b c : Timestamp) :
  ts_leb a b = true -> ts_leb b c = true -> ts_leb a c = true.
Proof.
  unfold ts_leb, ts_compare.
  destruct (Z.compare_spec (year a) (year b)); try discriminate;
  destruct (Z.compare_spec (year b) (year c)); try discriminate;
  destruct (Z.compare_spec (year a) (year c)); try lia; auto;
  destruct (Z.compare_spec (month a) (month b)); try discriminate;
  destruct (Z.compare_spec (month b) (month c)); try discriminate;
  destruct (Z.compare_spec (month a) (month c)); try lia; auto;
  destruct (Z.compare_spec (day a) (day b)); try discriminate;
  destruct (Z.compare_spec (day b) (day c)); try discriminate;
  destruct (Z.compare_spec (day a) (day c)); try lia; auto;
  destruct (Z.compare_spec (time a) (time b)); try discriminate;
  destruct (Z.compare_spec (time b) (time c)); try discriminate;
  destruct (Z.compare_spec (time a) (time c)); try lia; auto.
Qed.

Lemma between_In_iff (c : Row -> datecell) (s e : Timestamp) (df : list Row)
    (r : Row) :
  In r (between c s e df) <->
  In r df /\ exists t, c r = DTs t /\ ts_leb s t = true /\ ts_leb t e = true.
Proof.
  unfold between. rewrite filter_In. unfold date_ge, date_le. split.
  - intros [Hin H]. split; [assumption|].
    destruct (c r) as [| |t]; try discriminate.
    apply andb_true_iff in H. exists t. tauto.
  - intros [Hin [t [E [H1 H2]]]]. split; [assumption|].
    rewrite E, H1, H2. reflexivity.
Qed.

(** When two dates are picked, the date filter keeps exactly the rows of the
    coerced frame whose chosen date column holds a timestamp between them,
    bounds included (a row with NaT there is dropped); and a range whose
    start is after its end keeps nothing. *)
Theorem date_range_filter (ui : UI) (df0 : list Row) (s e : Timestamp) :
  date_input ui = [s; e] ->
  (forall r, In r (apply_date_filter ui (map coerce_dates df0)) <->
     In r (map coerce_dates df0)
     /\ exists t, date_column (radio_filter_type ui) r = DTs t
                  /\ ts_leb s t = true /\ ts_leb t e = true)
  /\ (ts_leb s e = false -> apply_date_filter ui (map coerce_dates df0) = []).
Proof.
  intros E. unfold apply_date_filter. rewrite E.
  set (df := map coerce_dates df0).
  change (filter _ df)
    with (between (date_column (radio_filter_type ui)) s e df).
  split.
  - intros r. apply between_In_iff.
  - intros Hinv.
    destruct (between (date_column (radio_filter_type ui)) s e df) as [|r l] eqn:B;
      [reflexivity|].
    assert (Hin : In r (between (date_column (radio_filter_type ui)) s e df))
      by (rewrite B; simpl; auto).
    apply between_In_iff in Hin. destruct Hin as [_ [t [_ [H1 H2]]]].
    rewrite (ts_leb_trans s t e H1 H2) in Hinv. discriminate.
Qed.

Lemma date_range_filter_witness :
  (forall r,
     In r (apply_date_filter
             {| radio_filter_type := EventDate;
                date_input := [mkTs 2023 1 1 0; mkTs 2023 6 30 0];
                multiselect := fun _ _ => [];
                checkbox_show_average := false |}
             (map coerce_dates spring_and_fall)) <->
     In r (map coerce_dates spring_and_fall)
     /\ exists t, Event_Date r = DTs t
                  /\ ts_leb (mkTs 2023 1 1 0) t = true
                  /\ ts_leb t (mkTs 2023 6 30 0) = true)
  /\ (ts_leb (mkTs 2023 1 1 0) (mkTs 2023 6 30 0) = false ->
      apply_date_filter
        {| radio_filter_type := EventDate;
           date_input := [mkTs 2023 1 1 0; mkTs 2023 6 30 0];
           multiselect := fun _ _ => [];
           checkbox_show_average := false |}
        (map coerce_dates spring_and_fall) = []).
Proof.
  apply (date_range_filter
           {| radio_filter_type := EventDate;
              date_input := [mkTs 2023 1 1 0; mkTs 2023 6 30 0];
              multiselect := fun _ _ => [];
              checkbox_show_average := false |} spring_and_fall
           (mkTs 2023 1 1 0) (mkTs 2023 6 30 0)).
  reflexivity.
Defined.

(* ================================================================== *)
(** * The groups *)

Section GroupShape.
Context {R K : Type}.
Context (K_eq_dec : forall a b : K, {a = b} + {a <> b}).
Context (K_leb : K -> K -> bool).
Context (key : R -> option K).

Lemma groupby_keys (df : list R) :
  map fst (groupby K_eq_dec K_leb key df)
  = sort K_leb (unique K_eq_dec (present_keys key df)).
Proof.
  unfold groupby. rewrite map_map. simpl. apply map_id.
Qed.

Lemma groupby_keys_NoDup (df : list R) :
  NoDup (map fst (groupby K_eq_dec K_leb key df)).
Proof.
  rewrite groupby_keys.
  apply (Permutation_NoDup (Permutation_sym (sort_perm K_leb _))).
  apply unique_NoDup.
Qed.

Lemma groupby_keys_ordered (df : list R) :
  (forall a b, K_leb a b = true \/ K_leb b a = true) ->
  ordered K_leb (map fst (groupby K_eq_dec K_leb key df)) = true.
Proof.
  intros T. rewrite groupby_keys. apply sort_ordered. exact T.
Qed.

Lemma has_key_iff (k : K) (r : R) :
  has_key K_eq_dec key k r = true <-> key r = Some k.
Proof.
  unfold has_key. destruct (key r) as [k'|].
  - destruct (K_eq_dec k k') as [->|N]; split; intros H;
      try reflexivity; try discriminate.
    inversion H. subst. contradiction.
  - split; discriminate.
Qed.

(** A pair is a group of [groupby] exactly when its key is the key of some
    row and its rows are the rows of the frame that have that key, in frame
    order. *)
Lemma groupby_In_iff (df : list R) (k : K) (rows : list R) :
  In (k, rows) (groupby K_eq_dec K_leb key df) <->
  rows = filter (has_key K_eq_dec key k) df
  /\ exists r, In r df /\ key r = Some k.
Proof.
  unfold groupby. rewrite in_map_iff. split.
  - intros [k' [E Hk]]. inversion E. subst. split; [reflexivity|].
    apply sort_In, unique_In, present_keys_In in Hk. exact Hk.
  - intros [-> Hr]. exists k. split; [reflexivity|].
    apply sort_In, unique_In, present_keys_In. exact Hr.
Qed.

Lemma groupby_nil_iff (df : list R) :
  groupby K_eq_dec K_leb key df = [] <-> forall r, In r df -> key r = None.
Proof.
  split.
  - intros H r Hr. destruct (key r) as [k|] eqn:E; [|reflexivity].
    assert (Hin : In (k, filter (has_key K_eq_dec key k) df)
                     (groupby K_eq_dec K_leb key df)).
    { apply groupby_In_iff. split; [reflexivity|]. eauto. }
    rewrite H in Hin. contradiction.
  - intros H. destruct (groupby K_eq_dec K_leb key df) as [|[k rows] l] eqn:G;
      [reflexivity|].
    assert (Hin : In (k, rows) (groupby K_eq_dec K_leb key df))
      by (rewrite G; simpl; auto).
    apply groupby_In_iff in Hin. destruct Hin as [_ [r [Hr Hk]]].
    rewrite (H r Hr) in Hk. discriminate.
Qed.



End GroupShape.

Lemma keycell_leb_total (a b : keycell) :
  keycell_leb a b = true \/ keycell_leb b a = true.
Proof.
  destruct a as [x|x], b as [y|y]; simpl; auto.
  - apply String.leb_total.
  - apply ts_leb_total.
Qed.

Lemma key_leb_total (a b : list keycell) :
  key_leb a b = true \/ key_leb b a = true.
Proof.
  revert b. induction a as [|x a IH]; intros b.
  - left. reflexivity.
  - destruct b as [|y b]; [right; reflexivity|]. simpl.
    destruct (keycell_eq_dec x y) as [->|N].
    + destruct (keycell_eq_dec y y); [apply IH | contradiction].
    + destruct (keycell_eq_dec y x) as [->|N']; [contradiction|].
      apply keycell_leb_total.
Qed.

Lemma grouped_summary_keys (show_average : bool) (group_by_cols : list column)
    (df : list Row) :
  map group_key (grouped_summary show_average group_by_cols df)
  = map fst (groupby_cols group_by_cols df).
Proof.
  unfold grouped_summary. rewrite map_map. reflexivity.
Qed.

(** In the grouped frame no two rows have the same key, and the rows are in
    ascending order of their key tuples, whatever the frame and the grouping
    columns. *)
Theorem grouped_keys_distinct_and_ordered (show_average : bool)
    (group_by_cols : list column) (df : list Row) :
  NoDup (map group_key (grouped_summary show_average group_by_cols df))
  /\ ordered key_leb (map group_key (grouped_summary show_average group_by_cols df))
     = true.
Proof.
  rewrite grouped_summary_keys. unfold groupby_cols. split.
  - apply groupby_keys_NoDup.
  - apply groupby_keys_ordered. apply key_leb_total.
Qed.

(** The groups of a frame: there is a group for a key exactly when some row
    has that key in the grouping columns, and the group holds exactly the
    rows with that key, in frame order.  A row that lacks a value in one of
    the grouping columns is in no group. *)
Theorem groups_of_frame (group_by_cols : list column) (df : list Row)
    (k : list keycell) (rows : list Row) :
  (In (k, rows) (groupby_cols group_by_cols df) <->
   (exists r, In r df /\ row_key group_by_cols r = Some k)
   /\ rows = filter (has_key key_eq_dec (row_key group_by_cols) k) df)
  /\ (forall r, In r (filter (has_key key_eq_dec (row_key group_by_cols) k) df)
                <-> In r df /\ row_key group_by_cols r = Some k).
Proof.
  split.
  - unfold groupby_cols. rewrite groupby_In_iff. tauto.
  - intros r. rewrite filter_In. rewrite has_key_iff. tauto.
Qed.

(* ================================================================== *)
(** * When the Pool Yielding page shows data *)

Lemma pool_yield_rows_keyed (ui : UI) (snow_df : list Raw.Row) (r : Row) :
  In r (py_filtered_df (pool_yield_run ui (preprocess snow_df))) ->
  row_key (py_group_by_cols (pool_yield_run ui (preprocess snow_df))) r <> None.
Proof.
  intros Hr. apply row_key_present. intros c Hc.
  apply pool_yield_group_by_cols_In in Hc.
  apply pool_yield_filtered_incl in Hr.
  apply in_map_iff in Hr. destruct Hr as [r0 [<- Hr0]].
  apply preprocess_postcondition in Hr0.
  destruct Hr0 as [_ (H1 & H2 & H3 & H4 & H5)].
  destruct Hc as [->|[->|[->|[->| ->]]]]; simpl; try discriminate.
  - destruct (Venue_Name r0); [discriminate | discriminate H1].
  - destruct (Event_Name r0); [discriminate | discriminate H4].
  - destruct (Item_Name r0); [discriminate | discriminate H5].
Qed.

Lemma grouped_summary_nil_iff (show_average : bool) (group_by_cols : list column)
    (df : list Row) :
  grouped_summary show_average group_by_cols df = [] <->
  forall r, In r df -> row_key group_by_cols r = None.
Proof.
  unfold grouped_summary, groupby_cols.
  rewrite <- (groupby_nil_iff key_eq_dec key_leb (row_key group_by_cols) df).
  split.
  - apply map_eq_nil.
  - intros ->. reflexivity.
Qed.

Lemma nonempty_false_iff {A : Type} (l : list A) : nonempty l = false <-> l = [].
Proof. destruct l; simpl; split; intros H; try reflexivity; discriminate. Qed.

Lemma pool_yield_grouped_nil_iff (ui : UI) (snow_df : list Raw.Row) :
  py_df_grouped (pool_yield_run ui (preprocess snow_df)) = [] <->
  py_filtered_df (pool_yield_run ui (preprocess snow_df)) = [].
Proof.
  assert (E : py_df_grouped (pool_yield_run ui (preprocess snow_df))
              = grouped_summary (checkbox_show_average ui)
                  (py_group_by_cols (pool_yield_run ui (preprocess snow_df)))
                  (py_filtered_df (pool_yield_run ui (preprocess snow_df))))
    by reflexivity.
  rewrite E. split.
  - intros N. rewrite grouped_summary_nil_iff in N.
    pose proof (pool_yield_rows_keyed ui snow_df) as K.
    destruct (py_filtered_df (pool_yield_run ui (preprocess snow_df)))
      as [|r l]; [reflexivity|].
    exfalso. apply (K r); [simpl; auto|]. apply N. simpl. auto.
  - intros ->. apply grouped_summary_nil.
Qed.

(** On a frame with at least one row returned by [get_dataframe], the Pool
    Yielding page ends in "No data found to display." exactly when the
    filters leave no record; as soon as one record is left, charts and
    tables are shown. *)
Theorem pool_yield_no_data_iff (ui : UI) (snow_df : list Raw.Row) :
  preprocess snow_df <> [] ->
  (pool_yield_page ui (Some (preprocess snow_df)) = NoData <->
   py_filtered_df (pool_yield_run ui (preprocess snow_df)) = []).
Proof.
  intros _. rewrite <- pool_yield_grouped_nil_iff. unfold pool_yield_page.
  destruct (py_df_grouped (pool_yield_run ui (preprocess snow_df))); simpl;
    split; intros H; try reflexivity; discriminate.
Qed.

Lemma pool_yield_no_data_iff_witness :
  pool_yield_page (pick_only "Select Venue Name" [Some "Lounge"])
                  (Some (preprocess (map as_raw spring_and_fall)))
  = NoData.
Proof.
  apply (proj2 (pool_yield_no_data_iff
                  (pick_only "Select Venue Name" [Some "Lounge"])
                  (map as_raw spring_and_fall)
                  ltac:(vm_compute; discriminate))).
  vm_compute. reflexivity.
Defined.




(* ================================================================== *)
(** * Counts and means of the groups *)








(* ================================================================== *)
(** * Which records the Seasonal Grouping page sums *)




(* ================================================================== *)
(** * More on the Transaction Type page *)

(** The cascade of the Transaction Type page runs to its end exactly when no
    pay type is picked without a venue type and no venue name is picked
    without a pay type; otherwise it stops with a NameError on one of the two
    frames that are assigned only when the earlier multiselect has a pick. *)
Theorem cascade_succeeds_iff (ui : UI) (df : list Row) :
  let venue_types := multiselect ui "Select Venue Type" (unique_of Venue_Type df) in
  let pay_types :=
    multiselect ui "Select Pay Type"
      (if nonempty venue_types
       then unique_of Pay_Type (where_isin Venue_Type venue_types df)
       else unique_of Pay_Type df) in
  let venue_names := multiselect ui "Select Venue Name" (unique_of Venue_Name df) in
  ((exists c, cascade ui df = Ok c) <->
   (pay_types = [] \/ venue_types <> [])
   /\ (pay_types <> [] \/ venue_names = []))
  /\ ((exists c, cascade ui df = Ok c)
      \/ cascade ui df = Err (NameError "df_pay_type_filtered")
      \/ cascade ui df = Err (NameError "df_venue_name_filtered")).
Proof.
  cbv zeta. unfold cascade.
  destruct (multiselect ui "Select Venue Type" (unique_of Venue_Type df))
    as [|vt vts] eqn:E1; cbn [nonempty].
  - destruct (multiselect ui "Select Pay Type" (unique_of Pay_Type df))
      as [|pt pts] eqn:E2; cbn [nonempty read_local bind].
    + destruct (multiselect ui "Select Venue Name" (unique_of Venue_Name df))
        as [|vn vns] eqn:E3; cbn [nonempty read_local bind].
      * split; [|left; eauto]. split; [intros _; auto | intros _; eauto].
      * split; [|right; right; reflexivity]. split.
        -- intros [c H]. discriminate H.
        -- intros [_ [H|H]]; [contradiction | discriminate H].
    + split; [|right; left; reflexivity]. split.
      * intros [c H]. discriminate H.
      * intros [[H|H] _]; [discriminate H | contradiction].
  - destruct (multiselect ui "Select Pay Type" _) as [|pt pts] eqn:E2;
      cbn [nonempty read_local bind].
    + destruct (multiselect ui "Select Venue Name" (unique_of Venue_Name df))
        as [|vn vns] eqn:E3; cbn [nonempty read_local bind].
      * split; [|left; eauto]. split; [intros _ | intros _; eauto].
        split; [auto | auto].
      * split; [|right; right; reflexivity]. split.
        -- intros [c H]. discriminate H.
        -- intros [_ [H|H]]; [contradiction | discriminate H].
    + destruct (multiselect ui "Select Venue Name" _) as [|vn vns] eqn:E3;
        cbn [nonempty read_local bind].
      * split; [|left; eauto]. split; [intros _ | intros _; eauto].
        split; [right; discriminate | left; discriminate].
      * split; [|left; eauto]. split; [intros _ | intros _; eauto].
        split; [right; discriminate | left; discriminate].
Qed.

Lemma narrow_In_iff (c : Row -> cell) (selected : list cell) (df : list Row)
    (r : Row) :
  In r (narrow c selected df) <->
  In r df /\ (selected = [] \/ In (c r) selected).
Proof.
  unfold narrow, where_isin. destruct selected as [|x sel]; simpl.
  - tauto.
  - rewrite filter_In. unfold isin. rewrite mem_true_iff. simpl. split.
    + intros [H1 H2]. auto.
    + intros [H1 [H2|H2]]; [discriminate | auto].
Qed.

(** Whatever the cascade offered, the frame that the Transaction Type page
    groups is narrowed by all four selections and by the date range: a
    record is kept exactly when it passes the date filter and, for each
    multiselect with a pick, its value is among the picked ones. *)
Theorem transaction_type_filtered_In_iff (ui : UI) (c : Cascade) (df : list Row)
    (r : Row) :
  In r (transaction_type_filtered ui c df) <->
  In r (apply_date_filter ui df)
  /\ (selected_venue_type c = [] \/ In (Venue_Type r) (selected_venue_type c))
  /\ (selected_pay_type c = [] \/ In (Pay_Type r) (selected_pay_type c))
  /\ (selected_venue_name c = [] \/ In (Venue_Name r) (selected_venue_name c))
  /\ (selected_item_name c = [] \/ In (Item_Name r) (selected_item_name c)).
Proof.
  unfold transaction_type_filtered. rewrite !narrow_In_iff. tauto.
Qed.

Lemma append_if_nil_iff {A : Type} (selected : list A) (c : column) :
  append_if selected c = [] <-> selected = [].
Proof.
  unfold append_if. destruct selected; simpl; split; intros H;
    try reflexivity; discriminate.
Qed.

(** When the cascade runs to its end, the Transaction Type page answers
    "No grouping filters selected." exactly when nothing is picked in any of
    the four multiselects, whatever the data. *)
Theorem no_grouping_iff (ui : UI) (df0 : list Row) (c : Cascade) :
  cascade ui (map coerce_dates df0) = Ok c ->
  (transaction_type_page ui (Some df0) = NoGroupingSelected <->
   selected_venue_type c = [] /\ selected_pay_type c = []
   /\ selected_venue_name c = [] /\ selected_item_name c = []).
Proof.
  intros E. unfold transaction_type_page. rewrite E.
  unfold transaction_type_group_by_cols.
  destruct (selected_venue_type c) as [|a la]; simpl.
  - destruct (selected_pay_type c) as [|b lb]; simpl.
    + destruct (selected_venue_name c) as [|d ld]; simpl.
      * destruct (selected_item_name c) as [|e le]; simpl.
        -- tauto.
        -- destruct (nonempty _); split; intros H; try discriminate H;
             destruct H as (_ & _ & _ & H); discriminate H.
      * destruct (nonempty _); split; intros H; try discriminate H;
          destruct H as (_ & _ & H & _); discriminate H.
    + destruct (nonempty _); split; intros H; try discriminate H;
        destruct H as (_ & H & _); discriminate H.
  - destruct (nonempty _); split; intros H; try discriminate H;
      destruct H as (H & _); discriminate H.
Qed.

Lemma no_grouping_iff_witness :
  transaction_type_page nothing_picked (Some pool_and_bar) = NoGroupingSelected.
Proof.
  eapply (proj2 (no_grouping_iff nothing_picked pool_and_bar _ eq_refl)).
  repeat split.
Defined.

(* ================================================================== *)
(** * The order of the rows that are shown *)

Lemma first_key_leb_total (a b : SummaryRow) :
  first_key_leb a b = true \/ first_key_leb b a = true.
Proof.
  unfold first_key_leb.
  destruct (group_key a) as [|x ka], (group_key b) as [|y kb]; auto.
  apply keycell_leb_total.
Qed.

Lemma sort_values_first_spec (df_grouped : list SummaryRow) :
  Permutation (sort_values_first df_grouped) df_grouped
  /\ ordered first_key_leb (sort_values_first df_grouped) = true.
Proof.
  unfold sort_values_first. split.
  - apply sort_perm.
  - apply sort_ordered. apply first_key_leb_total.
Qed.

(** Whenever the Pool Yielding, the Seasonal Grouping or the Transaction
    Type page shows rows, there is at least one, and they are in ascending
    order of the text of their time bucket. *)
Theorem shown_rows_in_bucket_order (ui : UI) (df : option (list Row))
    (rows : list SummaryRow) :
  pool_yield_page ui df = Shown rows
  \/ seasonal_grouping_page ui df = Shown rows
  \/ transaction_type_page ui df = Shown rows ->
  rows <> [] /\ ordered first_key_leb rows = true.
Proof.
  assert (G : forall l, nonempty l = true ->
              sort_values_first l <> []
              /\ ordered first_key_leb (sort_values_first l) = true).
  { intros l Hl. destruct (sort_values_first_spec l) as [P O].
    split; [|exact O]. intros C. rewrite C in P.
    apply Permutation_nil in P. subst. discriminate Hl. }
  intros [H|[H|H]].
  - unfold pool_yield_page in H. destruct df as [df0|]; [|discriminate H].
    destruct (nonempty _) eqn:N in H; [|discriminate H].
    inversion H. apply G. exact N.
  - unfold seasonal_grouping_page in H. destruct df as [df0|]; [|discriminate H].
    destruct (nonempty _) eqn:N in H; [|discriminate H].
    inversion H. apply G. exact N.
  - unfold transaction_type_page in H. destruct df as [df0|]; [|discriminate H].
    destruct (cascade ui (map coerce_dates df0)) as [c|e]; [|discriminate H].
    destruct (nonempty (transaction_type_group_by_cols c)); [|discriminate H].
    destruct (nonempty (grouped_summary _ _ _)) eqn:N in H; [|discriminate H].
    inversion H. apply G. exact N.
Qed.

Lemma shown_rows_in_bucket_order_witness :
  exists rows,
    rows <> [] /\ ordered first_key_leb rows = true
    /\ pool_yield_page nothing_picked (Some spring_and_fall) = Shown rows.
Proof.
  eexists.
  assert (H : pool_yield_page nothing_picked (Some spring_and_fall) = Shown _)
    by (vm_compute; reflexivity).
  destruct (shown_rows_in_bucket_order nothing_picked (Some spring_and_fall) _
              (or_introl H)) as [H1 H2].
  split; [exact H1|]. split; [exact H2 | exact H].
Defined.

(* ================================================================== *)
(** * The sums of the Transaction Type page *)





(* ================================================================== *)
(** * More on the Daily Inventory page *)



Lemma inventory_grouped_group (ef : string) (df : list Row) (g : InventoryRow) :
  In g (inventory_grouped ef df) ->
  exists rows,
    g = inventory_agg (inv_key g, rows)
    /\ rows <> []
    /\ forall r, In r rows <->
         In r df /\ row_key (inventory_group_by_cols ef) r = Some (inv_key g).
Proof.
  unfold inventory_grouped. intros H. apply in_map_iff in H.
  destruct H as [[k rows] [<- Hkg]]. simpl. exists rows.
  split; [reflexivity|].
  pose proof (groupby_groups_inhabited _ _ _ _ _ Hkg) as Hne. simpl in Hne.
  split; [exact Hne|].
  unfold groupby_cols in Hkg. apply groupby_In_iff in Hkg.
  destruct Hkg as [-> _]. intros r.
  rewrite filter_In, has_key_iff, sort_In. tauto.
Qed.



Lemma rint_bounds (q : Q) (lo hi : Z) :
  (inject_Z lo <= q)%Q -> (q <= inject_Z hi)%Q -> lo <= rint q <= hi.
Proof.
  intros Hlo Hhi. unfold rint.
  assert (F1 : lo <= Qfloor q).
  { rewrite <- (Qfloor_Z lo). apply Qfloor_resp_le. exact Hlo. }
  assert (F2 : Qfloor q <= hi).
  { rewrite <- (Qfloor_Z hi). apply Qfloor_resp_le. exact Hhi. }
  destruct (Z.eq_dec (Qfloor q) hi) as [E|N].
  - assert (D : (q - inject_Z (Qfloor q) == 0)%Q).
    { apply Qle_antisym.
      - rewrite E. apply (Qplus_le_l _ _ (inject_Z hi)). ring_simplify. exact Hhi.
      - apply (Qplus_le_l _ _ (inject_Z (Qfloor q))). ring_simplify.
        apply Qfloor_le. }
    rewrite (Qcompare_comp _ _ D _ _ (Qeq_refl (1 # 2))).
    change (0 ?= 1 # 2)%Q with Lt. cbv iota. lia.
  - destruct (q - inject_Z (Qfloor q) ?= 1 # 2)%Q; try lia.
    destruct (Z.even (Qfloor q)); lia.
Qed.

(** When the quantity sold of a group is between 0 and its peak stock, and
    that stock is positive, the percentage-sale is a finite number between 0
    and 100. *)
Theorem percentage_sale_in_range (ef_name_filter : string) (df : list Row)
    (g : InventoryRow) (stock : Z) :
  In g (inventory_grouped ef_name_filter df) ->
  inv_Stock g = Some stock ->
  0 < stock ->
  0 <= inv_Quantity g <= stock ->
  exists p, PERCENTAGE_SALE g = FFin p /\ (0 <= p)%Q /\ (p <= 100)%Q.
Proof.
  intros H Hs Hpos Hq. apply inventory_grouped_row in H. destruct H as [E _].
  rewrite E, Hs. unfold percentage_sale, truediv_col, truediv.
  destruct (stock =? 0) eqn:Z0; [apply Z.eqb_eq in Z0; lia|].
  simpl. eexists. split; [reflexivity|].
  unfold round2.
  set (x := (inject_Z (inv_Quantity g) / inject_Z stock * inject_Z 100 * 100)%Q).
  assert (Sp : (0 < inject_Z stock)%Q).
  { change 0%Q with (inject_Z 0). rewrite <- Zlt_Qlt. exact Hpos. }
  assert (R : (0 <= inject_Z (inv_Quantity g) / inject_Z stock)%Q
              /\ (inject_Z (inv_Quantity g) / inject_Z stock <= 1)%Q).
  { split.
    - apply Qle_shift_div_l; [exact Sp|]. rewrite Qmult_0_l.
      change 0%Q with (inject_Z 0). rewrite <- Zle_Qle. lia.
    - apply Qle_shift_div_r; [exact Sp|]. rewrite Qmult_1_l.
      rewrite <- Zle_Qle. lia. }
  destruct R as [R0 R1].
  assert (B : 0 <= rint x <= 10000).
  { apply rint_bounds; unfold x.
    - change (inject_Z 0) with 0%Q. change (inject_Z 100) with 100%Q.
      apply Qmult_le_0_compat; [|discriminate].
      apply Qmult_le_0_compat; [exact R0 | discriminate].
    - change (inject_Z 10000) with (1 * 100 * 100)%Q.
      change (inject_Z 100) with 100%Q.
      apply Qmult_le_compat_r; [|discriminate].
      apply Qmult_le_compat_r; [exact R1 | discriminate]. }
  split.
  - apply Qle_shift_div_l; [reflexivity|]. rewrite Qmult_0_l.
    change 0%Q with (inject_Z 0). rewrite <- Zle_Qle. lia.
  - apply Qle_shift_div_r; [reflexivity|].
    change (100 * 100)%Q with (inject_Z 10000). rewrite <- Zle_Qle. lia.
Qed.

Lemma percentage_sale_in_range_witness :
  exists g, In g (inventory_grouped "All" spring_and_fall)
    /\ exists p, PERCENTAGE_SALE g = FFin p /\ (0 <= p)%Q /\ (p <= 100)%Q.
Proof.
  eexists. split.
  - vm_compute. left. reflexivity.
  - apply (percentage_sale_in_range "All" spring_and_fall _ 10).
    + vm_compute. left. reflexivity.
    + reflexivity.
    + lia.
    + simpl. lia.
Defined.

Lemma cell_equals_iff (x v : cell) :
  cell_equals x v = true <-> exists s, x = Some s /\ v = Some s.
Proof.
  unfold cell_equals. destruct x as [a|], v as [b|]; split; intros H;
    try discriminate;
    try (match type of H with ex _ => destruct H as [? [? ?]]; discriminate end).
  - apply String.eqb_eq in H. subst. eauto.
  - destruct H as [s [H1 H2]]. inversion H1. inversion H2. subst.
    apply String.eqb_refl.
Qed.

Lemma choice_incl (c : Row -> cell) (v : cell) (df : list Row) (r : Row) :
  In r (if is_All v then df else where_equals c v df) -> In r df.
Proof.
  destruct (is_All v); [auto|]. unfold where_equals. intros H.
  apply filter_In in H. tauto.
Qed.

Lemma choice_In_iff (c : Row -> cell) (v : cell) (df : list Row) (r : Row) :
  In r (if is_All v then df else where_equals c v df) <->
  In r df /\ (is_All v = true \/ cell_equals (c r) v = true).
Proof.
  destruct (is_All v) eqn:E.
  - split; [auto | tauto].
  - unfold where_equals. rewrite filter_In. split.
    + tauto.
    + intros [H [C|C]]; [discriminate | auto].
Qed.

(** The frame left by the sidebar of the Daily Inventory page: a record is
    kept exactly when its two dates are timestamps, its event date is in the
    range (bounds included), its venue is the selected one and, for the event
    and the item, either "All" is selected or the record has the selected
    value.  Selecting "All" never narrows, also when an event or an item
    itself is called "All". *)
Theorem daily_inventory_filter_In_iff (ui : InventoryUI) (df0 : list Row) (r : Row) :
  let f := daily_inventory_filter ui df0 in
  In r (inv_df f) <->
  In r (daily_inventory_dates df0)
  /\ (exists t, Event_Date r = DTs t
                /\ ts_leb (inv_start_date f) t = true
                /\ ts_leb t (inv_end_date f) = true)
  /\ cell_equals (Venue_Name r) (vp_venuename_filter f) = true
  /\ (is_All (ef_name_filter f) = true
      \/ cell_equals (Event_Name r) (ef_name_filter f) = true)
  /\ (is_All (ti_itemname_filter f) = true
      \/ cell_equals (Item_Name r) (ti_itemname_filter f) = true).
Proof.
  cbv zeta. unfold daily_inventory_filter. simpl.
  rewrite !choice_In_iff. unfold where_equals. rewrite filter_In.
  rewrite between_In_iff. tauto.
Qed.

Lemma inventory_key_venue (ef : string) (r : Row) (k : list keycell) :
  row_key (inventory_group_by_cols ef) r = Some k ->
  nth_error k 1 = option_map KStr (Venue_Name r).
Proof.
  unfold inventory_group_by_cols.
  destruct (String.eqb ef "All"); simpl;
    destruct (Event_Date r) as [| |t]; try discriminate;
    destruct (Venue_Name r) as [v|]; simpl; try discriminate.
  - destruct (Item_Name r); simpl; [|discriminate].
    intros H. inversion H. reflexivity.
  - destruct (Event_Name r); simpl; [|discriminate].
    destruct (Item_Name r); simpl; [|discriminate].
    intros H. inversion H. reflexivity.
Qed.

(** Every row of the grouped frame of the Daily Inventory page is about the
    venue selected in the sidebar: the report never mixes venues. *)
Theorem inventory_report_single_venue (ui : InventoryUI) (df0 : list Row)
    (ef : string) (g : InventoryRow) :
  In g (inventory_grouped ef (inv_df (daily_inventory_filter ui df0))) ->
  exists venue,
    vp_venuename_filter (daily_inventory_filter ui df0) = Some venue
    /\ nth_error (inv_key g) 1 = Some (KStr venue).
Proof.
  intros H. apply inventory_grouped_group in H.
  destruct H as [rows [_ [Hne Hrows]]].
  destruct rows as [|r rows]; [contradiction|].
  destruct (proj1 (Hrows r) (or_introl eq_refl)) as [Hin Hk].
  assert (V : cell_equals (Venue_Name r)
                (vp_venuename_filter (daily_inventory_filter ui df0)) = true).
  { unfold daily_inventory_filter in Hin |- *. simpl in Hin |- *.
    apply choice_incl, choice_incl in Hin.
    unfold where_equals in Hin. apply filter_In in Hin. tauto. }
  apply cell_equals_iff in V. destruct V as [venue [V1 V2]].
  exists venue. split; [exact V2|].
  rewrite (inventory_key_venue ef r _ Hk), V1. reflexivity.
Qed.

Lemma inventory_report_single_venue_witness :
  exists g venue,
    In g (inventory_grouped "All"
            (inv_df (daily_inventory_filter
                       {| inv_date_input := [mkTs 2023 1 1 0; mkTs 2023 12 31 0];
                          selectbox := fun label _ =>
                            if String.eqb label "Select Venue Name"
                            then Some "Cabana" else Some "All";
                          now := mkTs 2024 1 1 0 |} pool_and_bar)))
    /\ nth_error (inv_key g) 1 = Some (KStr venue).
Proof.
  eexists.
  assert (H : In _ (inventory_grouped "All"
            (inv_df (daily_inventory_filter
                       {| inv_date_input := [mkTs 2023 1 1 0; mkTs 2023 12 31 0];
                          selectbox := fun label _ =>
                            if String.eqb label "Select Venue Name"
                            then Some "Cabana" else Some "All";
                          now := mkTs 2024 1 1 0 |} pool_and_bar))))
    by (vm_compute; left; reflexivity).
  destruct (inventory_report_single_venue _ _ _ _ H) as [venue [_ Hv]].
  exists venue. split; [exact H | exact Hv].
Defined.

(** When no range is picked, the Daily Inventory page filters on the month
    that ends now: for a clock that shows a calendar date, the start of the
    range is a calendar date too (the last day of the previous month when
    that month is shorter), it is before the end, and the end is now. *)
Theorem default_range_is_last_month (ui : InventoryUI) (df0 : list Row) :
  List.length (inv_date_input ui) <> 2%nat ->
  1 <= month (now ui) <= 12 ->
  1 <= day (now ui) <= days_in_month (year (now ui)) (month (now ui)) ->
  let f := daily_inventory_filter ui df0 in
  inv_end_date f = now ui
  /\ inv_start_date f = minus_one_month (now ui)
  /\ 1 <= month (inv_start_date f) <= 12
  /\ 1 <= day (inv_start_date f)
          <= days_in_month (year (inv_start_date f)) (month (inv_start_date f))
  /\ ts_leb (inv_start_date f) (inv_end_date f) = true
  /\ ts_leb (inv_end_date f) (inv_start_date f) = false.
Proof.
  intros Hd Hm Hday. cbv zeta. unfold daily_inventory_filter. simpl.
  assert (E : (match inv_date_input ui with
               | [s; _] => s
               | _ => minus_one_month (now ui)
               end) = minus_one_month (now ui)
              /\ (match inv_date_input ui with
                  | [_; e] => e
                  | _ => now ui
                  end) = now ui).
  { destruct (inv_date_input ui) as [|a [|b [|c l]]]; auto.
    simpl in Hd. contradiction. }
  destruct E as [-> ->].
  split; [reflexivity|]. split; [reflexivity|].
  unfold minus_one_month, ts_leb, ts_compare. simpl.
  destruct (month (now ui) =? 1) eqn:M.
  - apply Z.eqb_eq in M.
    assert (D : days_in_month (year (now ui) - 1) 12 = 31) by reflexivity.
    rewrite D.
    repeat split; try lia;
      repeat match goal with
             | |- context [(?a ?= ?b)] =>
                 destruct (Z.compare_spec a b); try lia
             end; reflexivity.
  - apply Z.eqb_neq in M.
    assert (D : 28 <= days_in_month (year (now ui)) (month (now ui) - 1) <= 31).
    { unfold days_in_month.
      destruct (month (now ui) - 1 =? 2); [destruct (is_leap_year _); lia|].
      destruct (_ || _); lia. }
    repeat split; try lia;
      repeat match goal with
             | |- context [(?a ?= ?b)] =>
                 destruct (Z.compare_spec a b); try lia
             end; reflexivity.
Qed.

Lemma default_range_is_last_month_witness :
  inv_start_date (daily_inventory_filter
                    {| inv_date_input := [];
                       selectbox := fun _ _ => Some "All";
                       now := mkTs 2024 3 31 0 |} pool_and_bar)
  = mkTs 2024 2 29 0.
Proof.
  apply (default_range_is_last_month
           {| inv_date_input := [];
              selectbox := fun _ _ => Some "All";
              now := mkTs 2024 3 31 0 |} pool_and_bar).
  - simpl. discriminate.
  - simpl. lia.
  - vm_compute. split; discriminate.
Defined.

(* ================================================================== *)
(** * The filters of the Transaction Analysis page *)

Lemma where_isin_nothing (c : Row -> cell) (df : list Row) : where_isin c [] df = [].
Proof.
  unfold where_isin. induction df as [|r df IH]; simpl; [reflexivity | exact IH].
Qed.

Lemma event_date_leb_total (a b : Row) :
  event_date_leb a b = true \/ event_date_leb b a = true.
Proof.
  unfold event_date_leb.
  destruct (Event_Date a) as [| |x], (Event_Date b) as [| |y]; auto.
  apply ts_leb_total.
Qed.

(** On the Transaction Analysis page, choosing a filter with the radio
    button and picking no value for it leaves no record at all, whatever the
    dates; with another choice of the radio button ("None") and no date
    range, every record is kept, and the records are in the order of their
    event dates, those without one last. *)
Theorem filter_without_values_keeps_nothing (ui : OptionUI) (df0 : list Row) :
  (radio_select_filter ui = "Venue Name" \/ radio_select_filter ui = "Venue Type"
   \/ radio_select_filter ui = "Pay Type" ->
   (forall label options, multiselect (widgets ui) label options = []) ->
   transaction_analysis_filtered ui df0 = [])
  /\ (radio_select_filter ui <> "Venue Name" ->
      radio_select_filter ui <> "Venue Type" ->
      radio_select_filter ui <> "Pay Type" ->
      List.length (date_input (widgets ui)) <> 2%nat ->
      Permutation (transaction_analysis_filtered ui df0) (map coerce_dates df0)
      /\ ordered event_date_leb (transaction_analysis_filtered ui df0) = true).
Proof.
  unfold transaction_analysis_filtered. split.
  - intros Hopt Hsel. rewrite !Hsel, !where_isin_nothing.
    assert (E : (if String.eqb (radio_select_filter ui) "Venue Name" then []
                 else if String.eqb (radio_select_filter ui) "Venue Type" then []
                 else if String.eqb (radio_select_filter ui) "Pay Type" then []
                 else map coerce_dates df0) = []).
    { destruct Hopt as [->|[->| ->]]; reflexivity. }
    rewrite E.
    destruct (two_dates _) as [[s e]|]; destruct (two_dates _) as [[s' e']|];
      reflexivity.
  - intros N1 N2 N3 Hd.
    apply String.eqb_neq in N1, N2, N3. rewrite N1, N2, N3.
    assert (T : forall o, two_dates (match radio_filter_type (widgets ui) with
                                     | EventDate => o (date_input (widgets ui))
                                     | TransactionDate => o (date_input (widgets ui))
                                     end) = two_dates (o (date_input (widgets ui))))
      by (intros o; destruct (radio_filter_type (widgets ui)); reflexivity).
    assert (D : forall picked,
              picked = None \/ picked = Some (date_input (widgets ui)) ->
              two_dates picked = None).
    { intros picked [->| ->]; [reflexivity|]. unfold two_dates.
      destruct (date_input (widgets ui)) as [|a [|b [|c l]]]; try reflexivity.
      simpl in Hd. contradiction. }
    rewrite !D by (destruct (radio_filter_type (widgets ui)); auto).
    split.
    + apply sort_perm.
    + apply sort_ordered. apply event_date_leb_total.
Qed.

Lemma filter_without_values_keeps_nothing_witness :
  transaction_analysis_filtered
    {| widgets := nothing_picked; radio_select_filter := "Venue Type" |} pool_and_bar
  = []
  /\ Permutation
       (transaction_analysis_filtered
          {| widgets := nothing_picked; radio_select_filter := "None" |} pool_and_bar)
       (map coerce_dates pool_and_bar).
Proof.
  split.
  - apply (proj1 (filter_without_values_keeps_nothing
                    {| widgets := nothing_picked;
                       radio_select_filter := "Venue Type" |} pool_and_bar)).
    + right. left. reflexivity.
    + intros label options. reflexivity.
  - apply (proj2 (filter_without_values_keeps_nothing
                    {| widgets := nothing_picked;
                       radio_select_filter := "None" |} pool_and_bar));
      simpl; discriminate.
Defined.

(* ================================================================== *)
(** * The labels of the seasons *)

Lemma month_in_iff (m : option Z) (l : list Z) :
  month_in m l = true <-> exists n, m = Some n /\ In n l.
Proof.
  unfold month_in. destruct m as [n|].
  - rewrite existsb_exists. split.
    + intros [x [Hx E]]. apply Z.eqb_eq in E. subst. eauto.
    + intros [x [E Hx]]. inversion E. subst. exists x. split; [assumption|].
      apply Z.eqb_refl.
  - split; [discriminate | intros [n [E _]]; discriminate].
Qed.

(** A record has a season only when its event date is a timestamp with a
    month from 1 to 12, and the season is one of the four names. *)
Lemma Season_cases (r : Row) (s : string) :
  Season r = Some s ->
  (exists t, Event_Date r = DTs t /\ 1 <= month t <= 12)
  /\ (s = "Winter" \/ s = "Spring" \/ s = "Summer" \/ s = "Fall").
Proof.
  unfold Season, get_season.
  assert (M : forall l, month_in (month_of (Event_Date r)) l = true ->
              (forall n, In n l -> 1 <= n <= 12) ->
              exists t, Event_Date r = DTs t /\ 1 <= month t <= 12).
  { intros l H Hl. apply month_in_iff in H. destruct H as [n [E Hn]].
    unfold month_of in E. destruct (Event_Date r) as [| |t]; try discriminate.
    inversion E. subst. exists t. split; [reflexivity | apply Hl; exact Hn]. }
  destruct (month_in _ [12; 1; 2]) eqn:E1.
  { intros H. inversion H. split; [|auto].
    apply (M _ E1). simpl. intros n Hn. intuition lia. }
  destruct (month_in _ [3; 4; 5]) eqn:E2.
  { intros H. inversion H. split; [|auto].
    apply (M _ E2). simpl. intros n Hn. intuition lia. }
  destruct (month_in _ [6; 7; 8]) eqn:E3.
  { intros H. inversion H. split; [|auto].
    apply (M _ E3). simpl. intros n Hn. intuition lia. }
  destruct (month_in _ [9; 10; 11]) eqn:E4.
  { intros H. inversion H. split; [|auto 6].
    apply (M _ E4). simpl. intros n Hn. intuition lia. }
  discriminate.
Qed.

Lemma YearSeason_shape (r : Row) (l : string) :
  YearSeason r = Some l ->
  exists t s, Event_Date r = DTs t /\ 1 <= month t <= 12
    /\ Year r = year t /\ Season r = Some s
    /\ l = (str_of_Z (year t) ++ " " ++ s)%string
    /\ split l = [str_of_Z (year t); s].
Proof.
  unfold YearSeason. destruct (Season r) as [s|] eqn:Es; [|discriminate].
  intros H. inversion H as [El]. clear H.
  destruct (Season_cases r s Es) as [[t [Et Hm]] Hs].
  assert (Y : Year r = year t) by (unfold Year; rewrite Et; reflexivity).
  exists t, s. subst l. rewrite Y.
  split; [exact Et|]. split; [exact Hm|].
  split; [reflexivity|]. split; [reflexivity|]. split; [reflexivity|].
  change (String " " s) with (" " ++ s)%string.
  apply split_two_words.
  - apply str_of_Z_no_blank.
  - destruct Hs as [->|[->|[->| ->]]]; reflexivity.
  - apply str_of_Z_not_empty.
  - destruct Hs as [->|[->|[->| ->]]]; discriminate.
Qed.

(** Two records get the same year-season label only when they have the same
    year and the same season: grouping by the label never merges two
    seasons or two years. *)
Theorem YearSeason_label_one_to_one (r1 r2 : Row) (l : string) :
  YearSeason r1 = Some l -> YearSeason r2 = Some l ->
  Year r1 = Year r2 /\ Season r1 = Season r2.
Proof.
  intros H1 H2.
  apply YearSeason_shape in H1. destruct H1 as (t1 & s1 & _ & _ & Y1 & S1 & _ & P1).
  apply YearSeason_shape in H2. destruct H2 as (t2 & s2 & _ & _ & Y2 & S2 & _ & P2).
  rewrite P1 in P2. inversion P2 as [[Ey Es]].
  rewrite Y1, Y2, S1, S2. split; [|rewrite Es; reflexivity].
  apply (f_equal int_of_str) in Ey. rewrite !int_of_str_of_Z in Ey.
  inversion Ey. reflexivity.
Qed.

Lemma YearSeason_label_one_to_one_witness :
  Year (sample_row "Cabana" "Pool" "card" "Towel" 5 10 100 "c1" (at_midnight 2023 4 1))
  = Year (sample_row "Lounge" "Bar" "cash" "Soda" 3 10 50 "c2" (at_midnight 2023 5 9))
  /\ Season (sample_row "Cabana" "Pool" "card" "Towel" 5 10 100 "c1" (at_midnight 2023 4 1))
     = Season (sample_row "Lounge" "Bar" "cash" "Soda" 3 10 50 "c2" (at_midnight 2023 5 9)).
Proof.
  apply (YearSeason_label_one_to_one _ _ "2023 Spring"); reflexivity.
Defined.

Lemma present_YearSeason_In (df : list Row) (l : string) :
  In l (present_YearSeason df) <-> exists r, In r df /\ YearSeason r = Some l.
Proof.
  unfold present_YearSeason. rewrite in_flat_map. split.
  - intros [r [Hr H]]. exists r. split; [assumption|].
    destruct (YearSeason r); simpl in H; [|contradiction].
    destruct H as [->|[]]. reflexivity.
  - intros [r [Hr E]]. exists r. split; [assumption|]. rewrite E. simpl. auto.
Qed.

(** On the Day-of-the-week page, [sorted] never raises on the year-season
    labels of the grouped frame, whatever the records: it returns the same
    labels ordered by year and, within a year, Spring, Summer, Fall,
    Winter. *)
Theorem season_traces_in_calendar_order (filtered_df : list Row) :
  exists out,
    sorted_seasons (grouped_YearSeason_labels filtered_df) = Ok out
    /\ Permutation out (grouped_YearSeason_labels filtered_df)
    /\ ordered calendar_leb (map Some out) = true.
Proof.
  assert (T : exists keyed,
            mapM (fun x => k <- season_key x ;; Ok (k, x))
                 (grouped_YearSeason_labels filtered_df) = Ok keyed).
  { apply mapM_total. apply Forall_forall. intros l Hl.
    unfold grouped_YearSeason_labels in Hl.
    apply sort_In, unique_In, present_YearSeason_In in Hl.
    destruct Hl as [r [_ Hr]].
    destruct (YearSeason_shape r l Hr) as (t & s & Et & Hm & _ & _ & _ & _).
    destruct (season_key_of_YearSeason r t Et Hm) as [l' [i [E' K]]].
    rewrite Hr in E'. inversion E'. subst l'. rewrite K. simpl. eauto. }
  destruct T as [keyed Hk].
  assert (S : exists out, sorted_seasons (grouped_YearSeason_labels filtered_df) = Ok out).
  { unfold sorted_seasons. rewrite Hk. simpl. eauto. }
  destruct S as [out Hout]. exists out. split; [exact Hout|].
  apply sorted_seasons_in_calendar_order. exact Hout.
Qed.

(* ================================================================== *)
(** * The month labels of the Transaction Analysis page *)


















